(** * The requests transport of azure-core: a shallow embedding

    Sources embedded here:
    - [azure/core/pipeline/transport/requests_basic.py]
      ([RequestsTransport], [StreamDownloadGenerator]),
    - [azure/core/pipeline/transport/requests_asyncio.py]
      ([AsyncioRequestsTransport], [AsyncioStreamDownloadGenerator]),
    - [azure/core/pipeline/transport/requests_trio.py]
      ([TrioRequestsTransport]).

    Python objects are dynamically typed values, exceptions are values with a
    class, and every method is a computation in a small state / exception /
    event-log monad: the state is the object the method mutates, the log
    records what the method does to its collaborators (the pooled session, the
    raw response, the pipeline, the clock).  A coroutine is embedded as the
    computation its body makes when it is run to the end: an [await] on a
    call that runs on a worker thread makes the call and hands on what the
    future gives back, and a [StopIteration] does not leave the body. *)

From Stdlib Require Import ZArith List Bool Lia.
From stdpp Require Import base gmap strings list.
Import ListNotations.
Open Scope Z_scope.

(** ** Python values *)

Module Py.

(** The values that flow through the transport: keyword options, header
    dictionaries, session and event-loop handles, byte chunks and counters. *)
Inductive value :=
  | VNone
  | VBool (b : bool)
  | VInt (z : Z)
  | VStr (s : string)
  | VBytes (b : list Byte.byte)
  | VDict (d : gmap string string)
  | VSession (sid : nat)
  | VLoop (lid : nat).

(** [bool(v)]: the truth value Python gives an object in [if v] / [not v]. *)
Definition truthy (v : value) : bool :=
  match v with
  | VNone => false
  | VBool b => b
  | VInt z => negb (z =? 0)
  | VStr s => negb (String.eqb s "")
  | VBytes b => match b with [] => false | _ => true end
  | VDict d => negb (bool_decide (d = ∅))
  | VSession _ => true
  | VLoop _ => true
  end.

(** Exception classes: the builtins, urllib3.exceptions, requests.exceptions
    and azure.core that the transport raises, catches or lets through. *)
Inductive exn_class :=
  (* builtins *)
  | BaseException | Exception | KeyboardInterrupt
  | StopIteration | StopAsyncIteration
  | TypeError | ValueError | AttributeError | RuntimeError | OSError
  (* urllib3.exceptions *)
  | U3_HTTPError | U3_PoolError | U3_TimeoutError | U3_ConnectTimeoutError
  | NewConnectionError | ProtocolError
  (* requests.exceptions *)
  | RequestException | ConnectionError | ProxyError | SSLError
  | Requests_Timeout | ConnectTimeout | ReadTimeout
  | ChunkedEncodingError | ContentDecodingError | StreamConsumedError
  | TooManyRedirects
  (* azure.core *)
  | ResponseStopIteration
  | AzureError | ServiceRequestError | ServiceResponseError.

#[global] Instance exn_class_eq_dec : EqDecision exn_class.
Proof. solve_decision. Defined.

(** The direct base classes, as the libraries declare them. *)
Definition bases (c : exn_class) : list exn_class :=
  match c with
  | BaseException => []
  | Exception | KeyboardInterrupt => [BaseException]
  | StopIteration | StopAsyncIteration | TypeError | ValueError
  | AttributeError | RuntimeError | OSError => [Exception]
  | U3_HTTPError => [Exception]
  | U3_PoolError | U3_TimeoutError | ProtocolError => [U3_HTTPError]
  | U3_ConnectTimeoutError => [U3_TimeoutError]
  | NewConnectionError => [U3_ConnectTimeoutError; U3_PoolError]
  | RequestException => [OSError]
  | ConnectionError | Requests_Timeout | ChunkedEncodingError
  | TooManyRedirects => [RequestException]
  | ProxyError | SSLError => [ConnectionError]
  | ConnectTimeout => [ConnectionError; Requests_Timeout]
  | ReadTimeout => [Requests_Timeout]
  | ContentDecodingError => [RequestException; U3_HTTPError]
  | StreamConsumedError => [RequestException; TypeError]
  | ResponseStopIteration => [Exception]
  | AzureError => [Exception]
  | ServiceRequestError | ServiceResponseError => [AzureError]
  end.

(** [issubclass(c, d)]: [d] is reached from [c] along [bases]. *)
Fixpoint issubclass_depth (n : nat) (c d : exn_class) : bool :=
  bool_decide (c = d) ||
  match n with
  | O => false
  | S n' => existsb (fun b => issubclass_depth n' b d) (bases c)
  end.

(** No class above is more than six [bases] steps below [BaseException]. *)
Definition issubclass : exn_class -> exn_class -> bool := issubclass_depth 6.

#[local] Unset Elimination Schemes.

(** An exception instance: its class, its [args] tuple, and the
    [inner_exception] an azure.core error is built with ([error=err]). *)
Inductive exn : Type :=
  | Exn (cls : exn_class) (args : list exn_arg) (inner_exception : option exn)
with exn_arg : Type :=
  | ArgStr (s : string)
  | ArgExn (e : exn).

#[local] Set Elimination Schemes.

Definition cls_of (e : exn) : exn_class := let 'Exn c _ _ := e in c.
Definition args_of (e : exn) : list exn_arg := let 'Exn _ a _ := e in a.
Definition inner_exception_of (e : exn) : option exn := let 'Exn _ _ i := e in i.

(** [isinstance(e, c)] on an exception instance. *)
Definition isinstance (e : exn) (c : exn_class) : bool := issubclass (cls_of e) c.

(** [isinstance(a, c)] on a member of an [args] tuple (a string is never
    an instance of an exception class). *)
Definition arg_isinstance (a : exn_arg) (c : exn_class) : bool :=
  match a with
  | ArgExn e => isinstance e c
  | ArgStr _ => false
  end.

(** [e.args and isinstance(e.args[0], c)]. *)
Definition first_arg_isinstance (e : exn) (c : exn_class) : bool :=
  match args_of e with
  | a :: _ => arg_isinstance a c
  | [] => false
  end.

(** An exception raised by the interpreter itself, with its message. *)
Definition builtin (c : exn_class) (msg : string) : exn := Exn c [ArgStr msg] None.

(** Modelled from the spec: azure.core.exceptions is not among the sources;
    the two error values [ServiceRequestError] and [ServiceResponseError]
    each carry the original underlying error.  [azure_error k err] is
    [k(err, error=err)]. *)
Definition azure_error (k : exn_class) (err : exn) : exn :=
  Exn k [ArgExn err] (Some err).

(** The integer a value stands for in arithmetic ([bool] is an [int]). *)
Definition as_int (v : value) : option Z :=
  match v with
  | VInt z => Some z
  | VBool b => Some (if b then 1 else 0)
  | _ => None
  end.

(** [a + b]: numbers add, strings and byte strings concatenate with their
    own kind, everything else is a [TypeError]. *)
Definition add (a b : value) : exn + value :=
  match as_int a, as_int b with
  | Some x, Some y => inr (VInt (x + y))
  | _, _ =>
    match a, b with
    | VStr s, VStr t => inr (VStr (s +:+ t))
    | VBytes s, VBytes t => inr (VBytes (s ++ t))
    | _, _ => inl (builtin TypeError "unsupported operand type(s) for +")
    end
  end.

End Py.
Import Py.

(** ** Methods as computations

    A method body runs on a state [S], ends by returning or raising, and
    emits events of type [Ev].  A raise keeps the state reached so far, as in
    Python. *)

Inductive result (A : Type) :=
  | Return (a : A)
  | Raise (e : exn).
Arguments Return {A} a.
Arguments Raise {A} e.

Definition M (S Ev A : Type) : Type := S -> result A * S * list Ev.

Section Monad.
Context {S Ev : Type}.

Definition ret {A} (a : A) : M S Ev A := fun s => (Return a, s, []).

Definition raise {A} (e : exn) : M S Ev A := fun s => (Raise e, s, []).

Definition bind {A B} (m : M S Ev A) (f : A -> M S Ev B) : M S Ev B :=
  fun s =>
    let '(r, s1, ev1) := m s in
    match r with
    | Return a => let '(r2, s2, ev2) := f a s1 in (r2, s2, ev1 ++ ev2)
    | Raise e => (Raise e, s1, ev1)
    end.

Definition get : M S Ev S := fun s => (Return s, s, []).

Definition put (s : S) : M S Ev unit := fun _ => (Return tt, s, []).

Definition emit (e : Ev) : M S Ev unit := fun s => (Return tt, s, [e]).

(** An operation of the interpreter that either yields or raises. *)
Definition lift {A} (r : exn + A) : M S Ev A :=
  match r with
  | inl e => raise e
  | inr a => ret a
  end.

(** [try: body  except ...: handler]: the handler sees what the body
    raised; what the handler raises is not handled again. *)
Definition try_except {A} (body : M S Ev A) (handler : exn -> M S Ev A) : M S Ev A :=
  fun s =>
    let '(r, s1, ev1) := body s in
    match r with
    | Return a => (Return a, s1, ev1)
    | Raise e => let '(r2, s2, ev2) := handler e s1 in (r2, s2, ev1 ++ ev2)
    end.

Definition outcome {A} (x : result A * S * list Ev) : result A := x.1.1.
Definition final {A} (x : result A * S * list Ev) : S := x.1.2.
Definition events {A} (x : result A * S * list Ev) : list Ev := x.2.
End Monad.

Declare Scope py_scope.
Delimit Scope py_scope with py.
Notation "x <- m ;; k" := (bind m (fun x => k))
  (at level 100, m at next level, right associativity) : py_scope.
Notation "m ;;; k" := (bind m (fun _ => k))
  (at level 100, right associativity) : py_scope.
Open Scope py_scope.

(** ** Coroutines

    PEP 479: a [StopIteration] that would leave the body of a coroutine is
    replaced by a [RuntimeError]; the caller of an [async def] never sees
    one. *)
Definition pep479 {A} (r : result A) : result A :=
  match r with
  | Raise e =>
      if isinstance e StopIteration
      then Raise (builtin RuntimeError "coroutine raised StopIteration")
      else Raise e
  | Return a => Return a
  end.

(** The body [m] of an [async def], run to its end. *)
Definition coroutine {S Ev A} (m : M S Ev A) : M S Ev A :=
  fun s => let '(r, s1, ev) := m s in (pep479 r, s1, ev).

(** ** The data model *)

(** [azure.core.pipeline.transport.HttpRequest], as [send] reads it. *)
Module HttpRequest.
Record t := {
  method : string;
  url : string;
  headers : gmap string string;
  data : value;
  files : value
}.
End HttpRequest.

(** One pull on a body iterator: a chunk, or the exception the pull raises.
    A script of pulls stands for the iterator; the empty script is the
    exhausted iterator, whose [next] raises [StopIteration]. *)
Inductive pull :=
  | Chunk (b : list Byte.byte)
  | Throw (e : exn).

(** [requests.Response]: what the session hands back.  Header names are kept
    in lower case (the library's dictionary is case-insensitive). *)
Module RawResponse.
Record t := {
  status_code : Z;
  headers : gmap string string;
  reason : string;
  iter_content : Z -> list pull
}.
End RawResponse.

(** The arguments of one [session.request(...)] call. *)
Module Call.
Record t := {
  positional : list value;
  keywords : gmap string value
}.
End Call.

(** [azure.core.configuration.ConnectionConfiguration], read-only here. *)
Record ConnectionConfiguration := {
  verify : value;
  timeout : value;
  cert : value;
  data_block_size : Z
}.

Inductive response_class :=
  | RequestsTransportResponse
  | AsyncioRequestsTransportResponse
  | TrioRequestsTransportResponse.

(** The transport response: [_RequestsTransportResponseBase] and its three
    subclasses, which differ in [stream_download] only. *)
Module Response.
Record t := {
  kind : response_class;
  request : HttpRequest.t;
  internal_response : RawResponse.t;
  block_size : Z;
  status_code : Z;
  headers : gmap string string;
  reason : string;
  content_type : option string
}.
End Response.

(** [_RequestsTransportResponseBase.__init__].  The constructor of the base
    class (base.py, not among the sources) keeps the request and the raw
    response and stores [block_size or 4096]: a block size of 0 becomes
    4096. *)
Definition new_response (k : response_class) (request : HttpRequest.t)
    (requests_response : RawResponse.t) (block_size : Z) : Response.t :=
  {| Response.kind := k;
     Response.request := request;
     Response.internal_response := requests_response;
     Response.block_size := if block_size =? 0 then 4096 else block_size;
     Response.status_code := RawResponse.status_code requests_response;
     Response.headers := RawResponse.headers requests_response;
     Response.reason := RawResponse.reason requests_response;
     Response.content_type := RawResponse.headers requests_response !! "content-type" |}.

(** ** Calling with keywords *)

(** [kwargs.pop(k, default)]. *)
Definition pop (k : string) (dflt : value) (kwargs : gmap string value)
    : value * gmap string value :=
  (default dflt (kwargs !! k), delete k kwargs).

(** A call with explicit keywords [k1=v1, ...] followed by a starred
    dictionary [kwargs]: the keyword dictionary the callee
    receives; a key given both ways is a [TypeError] at the call site. *)
Definition keyword_arguments (explicit : list (string * value))
    (kwargs : gmap string value) : exn + gmap string value :=
  if existsb (fun kv => bool_decide (is_Some (kwargs !! kv.1))) explicit
  then inl (builtin TypeError "got multiple values for keyword argument")
  else inr (list_to_map explicit ∪ kwargs).

(** ** RequestsTransport *)

Record RequestsTransport := {
  session : value;
  _session_owner : value;
  connection_config : ConnectionConfiguration;
  _use_env_settings : value
}.

(** The transport together with the allocator of session objects. *)
Record world := {
  self : RequestsTransport;
  next_session : nat
}.

(** What a transport does to its session. *)
Inductive event :=
  | SessionCreated (sid : nat)
  | TrustEnvSet (sid : nat) (v : value)
  | AdapterMounted (sid : nat) (prefix : string)
  | SessionClosed (sid : nat)
  | HttpCall (sid : nat) (c : Call.t).

Definition T := M world event.

(** [RequestsTransport.__init__]; [cfg] is the [ConnectionConfiguration]
    built from the same keywords. *)
Definition __init__ (kwargs : gmap string value) (cfg : ConnectionConfiguration)
    : RequestsTransport :=
  {| session := default VNone (kwargs !! "session");
     _session_owner := default (VBool true) (kwargs !! "session_owner");
     connection_config := cfg;
     _use_env_settings := default (VBool true) (kwargs !! "use_env_settings") |}.

Definition set_session (v : value) : T unit :=
  w <- get;;
  put {| self := {| session := v;
                    _session_owner := _session_owner (self w);
                    connection_config := connection_config (self w);
                    _use_env_settings := _use_env_settings (self w) |};
         next_session := next_session w |}.

Definition set_session_owner (v : value) : T unit :=
  w <- get;;
  put {| self := {| session := session (self w);
                    _session_owner := v;
                    connection_config := connection_config (self w);
                    _use_env_settings := _use_env_settings (self w) |};
         next_session := next_session w |}.

(** [requests.Session()]: a session object nobody holds yet. *)
Definition new_session : T nat :=
  w <- get;;
  put {| self := self w; next_session := S (next_session w) |};;;
  emit (SessionCreated (next_session w));;;
  ret (next_session w).

Definition _protocols : list string := ["http://"; "https://"].

Fixpoint for_each {A} (l : list A) (body : A -> T unit) : T unit :=
  match l with
  | [] => ret tt
  | x :: l' => body x;;; for_each l' body
  end.

(** [_init_session]: the adapter mounted has its retries disabled
    ([Retry(total=False, redirect=False, raise_on_status=False)]). *)
Definition _init_session (sid : nat) : T unit :=
  w <- get;;
  emit (TrustEnvSet sid (_use_env_settings (self w)));;;
  for_each _protocols (fun p => emit (AdapterMounted sid p)).

Definition open : T unit :=
  w <- get;;
  if negb (truthy (session (self w))) && truthy (_session_owner (self w)) then
    sid <- new_session;;
    set_session (VSession sid);;;
    _init_session sid
  else ret tt.

(** [self.session.close()]. *)
Definition session_close : T unit :=
  w <- get;;
  match session (self w) with
  | VSession sid => emit (SessionClosed sid)
  | _ => raise (builtin AttributeError "object has no attribute 'close'")
  end.

Definition close : T unit :=
  w <- get;;
  if truthy (_session_owner (self w)) then
    session_close;;;
    set_session_owner (VBool false);;;
    set_session VNone
  else ret tt.

(** ** The asyncio event loop *)

(** [_get_running_loop()]: the loop the coroutine runs on, if any. *)
Definition _get_running_loop {S Ev} (running : option nat) : M S Ev value :=
  match running with
  | Some lid => ret (VLoop lid)
  | None => raise (builtin RuntimeError "No running event loop")
  end.

(** [loop.run_in_executor]: the bound method of the loop object. *)
Definition run_in_executor_method {S Ev} (loop : value) : M S Ev nat :=
  match loop with
  | VLoop lid => ret lid
  | _ => raise (builtin AttributeError "object has no attribute 'run_in_executor'")
  end.

(** What [await] makes of the future of [loop.run_in_executor] when the call
    on the worker thread ended in [r].  The future belongs to [loop]: awaited
    by a coroutine that runs on another loop it raises [RuntimeError],
    whatever the call did.  A future does not take a [StopIteration]
    ([set_exception] refuses it): the coroutine never gets the
    [StopIteration] itself; it is given the [RuntimeError] that stands in
    for it.  (An interpreter that has no stand-in leaves the future pending
    and the [await] does not end, an outcome no value here stands for: the
    theorems that tell what [send] makes of an exception of the call take
    that exception not to be a [StopIteration].) *)
Definition future_result {A} (same_loop : bool) (r : result A) : result A :=
  if same_loop then
    match r with
    | Raise e =>
        if isinstance e StopIteration
        then Raise (builtin RuntimeError "StopIteration cannot be raised into a Future")
        else Raise e
    | Return a => Return a
    end
  else Raise (builtin RuntimeError "Task got Future attached to a different loop").

(** [v] is the loop object [lid]. *)
Definition is_loop (lid : nat) (v : value) : bool :=
  match v with
  | VLoop l => Nat.eqb l lid
  | _ => false
  end.

(** [await loop.run_in_executor(None, call)] in a coroutine that runs on the
    loop [current]: the executor makes the call at once, on any loop, so the
    call is issued and its effects are there; the [await] then gives what
    the future of loop [lid] gives. *)
Definition await_run_in_executor {S Ev A} (current : value) (lid : nat)
    (call : M S Ev A) : M S Ev A :=
  fun s => let '(r, s1, ev) := call s in (future_result (is_loop lid current) r, s1, ev).

(** ** The trio worker threads *)

(** [await trio.run_sync_in_worker_thread(call, limiter=limiter)]: with
    [None] the default limiter is used and the call is made on a worker
    thread; any other limiter is first asked for a token
    ([limiter.acquire_on_behalf_of]), before a thread is started.  None of
    the values of this embedding is a limiter object. *)
Definition run_sync_in_worker_thread {S Ev A} (limiter : value) (call : M S Ev A)
    : M S Ev A :=
  match limiter with
  | VNone => call
  | _ => raise (builtin AttributeError "object has no attribute 'acquire_on_behalf_of'")
  end.

(** ** The three [send] methods *)

Section Send.

(** The pooled session: what [session.request] answers to a call, a raw
    response or the exception it raises. *)
Variable session_request : nat -> Call.t -> exn + RawResponse.t.

(** [self.session.request]: the bound method, looked up before any
    argument is evaluated. *)
Definition session_request_method : T nat :=
  w <- get;;
  match session (self w) with
  | VSession sid => ret sid
  | _ => raise (builtin AttributeError "object has no attribute 'request'")
  end.

(** The call itself. *)
Definition perform (sid : nat) (c : Call.t) : T RawResponse.t :=
  emit (HttpCall sid c);;;
  lift (session_request sid c).

(** The locals [response] and [error] after the [try] statement. *)
Definition locals : Type := option RawResponse.t * option exn.

(** [if error: raise error], then the response object is built. *)
Definition raise_or_wrap (k : response_class) (request : HttpRequest.t)
    (l : locals) : T Response.t :=
  match l with
  | (_, Some error) => raise error
  | (Some response, None) =>
      w <- get;;
      ret (new_response k request response
             (data_block_size (connection_config (self w))))
  | (None, None) =>
      raise (builtin AttributeError "object has no attribute 'status_code'")
  end.

(** *** requests_basic.py *)

(** The [except] clauses of [RequestsTransport.send], in source order;
    [None] when no clause matches and the exception propagates. *)
Definition except_basic (err : exn) : option exn :=
  if isinstance err NewConnectionError then
    Some (azure_error ServiceRequestError err)
  else if isinstance err ReadTimeout then
    Some (azure_error ServiceResponseError err)
  else if isinstance err ConnectionError then
    if first_arg_isinstance err ProtocolError then Some (azure_error ServiceResponseError err)
    else Some (azure_error ServiceRequestError err)
  else if isinstance err RequestException then
    Some (azure_error ServiceRequestError err)
  else None.

Definition send_basic (request : HttpRequest.t) (kwargs : gmap string value)
    : T Response.t :=
  open;;;
  l <- try_except
    (sid <- session_request_method;;
     w <- get;;
     let cfg := connection_config (self w) in
     let '(verify_, kwargs) := pop "connection_verify" (verify cfg) kwargs in
     let '(timeout_, kwargs) := pop "connection_timeout" (timeout cfg) kwargs in
     let '(cert_, kwargs) := pop "connection_cert" (cert cfg) kwargs in
     kw <- lift (keyword_arguments
                   [("headers", VDict (HttpRequest.headers request));
                    ("data", HttpRequest.data request);
                    ("files", HttpRequest.files request);
                    ("verify", verify_);
                    ("timeout", timeout_);
                    ("cert", cert_);
                    ("allow_redirects", VBool false)]
                   kwargs);;
     response <- perform sid
       {| Call.positional := [VStr (HttpRequest.method request);
                              VStr (HttpRequest.url request)];
          Call.keywords := kw |};;
     ret (Some response, None))
    (fun err =>
       match except_basic err with
       | Some error => ret (None, Some error)
       | None => raise err
       end);;
  raise_or_wrap RequestsTransportResponse request l.

(** *** requests_asyncio.py *)

Definition except_asyncio (err : exn) : option exn :=
  if isinstance err NewConnectionError then
    Some (azure_error ServiceRequestError err)
  else if isinstance err ReadTimeout then
    Some (azure_error ServiceResponseError err)
  else if isinstance err ConnectionError then
    if first_arg_isinstance err ProtocolError then Some (azure_error ServiceResponseError err)
    else Some (azure_error ServiceRequestError err)
  else if isinstance err RequestException then
    Some (azure_error ServiceRequestError err)
  else None.

(** [AsyncioRequestsTransport.send].  [loop.run_in_executor] is looked up
    first, then the arguments are evaluated, then the executor makes the
    call and the coroutine awaits its future, inside the [try]. *)
Definition send_asyncio (running : option nat) (request : HttpRequest.t)
    (kwargs : gmap string value) : T Response.t :=
  coroutine
    (open;;;
     current <- _get_running_loop running;;
     let loop := default current (kwargs !! "loop") in
     l <- try_except
       (lid <- run_in_executor_method loop;;
        sid <- session_request_method;;
        w <- get;;
        let cfg := connection_config (self w) in
        let '(verify_, kwargs) := pop "connection_verify" (verify cfg) kwargs in
        let '(timeout_, kwargs) := pop "connection_timeout" (timeout cfg) kwargs in
        let '(cert_, kwargs) := pop "connection_cert" (cert cfg) kwargs in
        kw <- lift (keyword_arguments
                      [("headers", VDict (HttpRequest.headers request));
                       ("data", HttpRequest.data request);
                       ("files", HttpRequest.files request);
                       ("verify", verify_);
                       ("timeout", timeout_);
                       ("cert", cert_);
                       ("allow_redirects", VBool false)]
                      kwargs);;
        response <- await_run_in_executor current lid
          (perform sid
             {| Call.positional := [VStr (HttpRequest.method request);
                                    VStr (HttpRequest.url request)];
                Call.keywords := kw |});;
        ret (Some response, None))
       (fun err =>
          match except_asyncio err with
          | Some error => ret (None, Some error)
          | None => raise err
          end);;
     raise_or_wrap AsyncioRequestsTransportResponse request l).

(** *** requests_trio.py *)

Definition except_trio (err : exn) : option exn :=
  if isinstance err NewConnectionError then
    Some (azure_error ServiceRequestError err)
  else if isinstance err ReadTimeout then
    Some (azure_error ServiceResponseError err)
  else if isinstance err ConnectionError then
    if first_arg_isinstance err ProtocolError then Some (azure_error ServiceResponseError err)
    else Some (azure_error ServiceRequestError err)
  else if isinstance err RequestException then
    Some (azure_error ServiceRequestError err)
  else None.

(** [TrioRequestsTransport.send]; the worker-thread call is the call
    itself, whose result or exception the [await] hands on. *)
Definition send_trio (request : HttpRequest.t) (kwargs : gmap string value)
    : T Response.t :=
  coroutine
    (open;;;
     let trio_limiter := default VNone (kwargs !! "trio_limiter") in
     l <- try_except
       (sid <- session_request_method;;
        w <- get;;
        let cfg := connection_config (self w) in
        let '(verify_, kwargs) := pop "connection_verify" (verify cfg) kwargs in
        let '(timeout_, kwargs) := pop "connection_timeout" (timeout cfg) kwargs in
        let '(cert_, kwargs) := pop "connection_cert" (cert cfg) kwargs in
        kw <- lift (keyword_arguments
                      [("headers", VDict (HttpRequest.headers request));
                       ("data", HttpRequest.data request);
                       ("files", HttpRequest.files request);
                       ("verify", verify_);
                       ("timeout", timeout_);
                       ("cert", cert_);
                       ("allow_redirects", VBool false)]
                      kwargs);;
        response <- run_sync_in_worker_thread trio_limiter
          (perform sid
             {| Call.positional := [VStr (HttpRequest.method request);
                                    VStr (HttpRequest.url request)];
                Call.keywords := kw |});;
        ret (Some response, None))
       (fun err =>
          match except_trio err with
          | Some error => ret (None, Some error)
          | None => raise err
          end);;
     raise_or_wrap TrioRequestsTransportResponse request l).

(** *** The three variants side by side *)

Inductive variant := Basic | Asyncio | Trio.

Definition send (v : variant) (running : option nat) : HttpRequest.t ->
    gmap string value -> T Response.t :=
  match v with
  | Basic => send_basic
  | Asyncio => send_asyncio running
  | Trio => send_trio
  end.

Definition except_clauses (v : variant) : exn -> option exn :=
  match v with
  | Basic => except_basic
  | Asyncio => except_asyncio
  | Trio => except_trio
  end.

Definition response_class_of (v : variant) : response_class :=
  match v with
  | Basic => RequestsTransportResponse
  | Asyncio => AsyncioRequestsTransportResponse
  | Trio => TrioRequestsTransportResponse
  end.

(** The HTTP calls among the events of a run, oldest first. *)
Definition http_calls (evs : list event) : list (nat * Call.t) :=
  omap (fun e => match e with HttpCall sid c => Some (sid, c) | _ => None end) evs.

(** The sessions a run released. *)
Definition sessions_closed (evs : list event) : list nat :=
  omap (fun e => match e with SessionClosed sid => Some sid | _ => None end) evs.

(** What the interpreter itself raises before any call is made. *)
Definition raised_before_call (e : exn) : Prop :=
  cls_of e = AttributeError \/ cls_of e = TypeError \/ cls_of e = RuntimeError.

(** *** A caller

    A caller drives one transport through a sequence of method calls and
    survives the exceptions: the transport keeps its state from one call to
    the next. *)

Inductive op :=
  | Open
  | Close
  | Send (v : variant) (running : option nat) (request : HttpRequest.t)
      (kwargs : gmap string value).

Definition run_op (o : op) (w : world) : result unit * world * list event :=
  match o with
  | Open => open w
  | Close => close w
  | Send v running request kwargs =>
      let '(r, w', ev) := send v running request kwargs w in
      (match r with Return _ => Return tt | Raise e => Raise e end, w', ev)
  end.

(** What a transport without a session answers to a method call: [open]
    and [close] return, [send] raises on the absent session (the asyncio
    [send] raises before that when it finds no loop to run on). *)
Definition refused (o : op) (r : result unit) : Prop :=
  match o with
  | Open | Close => r = Return tt
  | Send Asyncio None _ _ =>
      r = Raise (builtin RuntimeError "No running event loop")
  | Send Asyncio (Some _) _ _ =>
      exists e, r = Raise e /\ cls_of e = AttributeError
  | Send _ _ _ _ =>
      r = Raise (builtin AttributeError "object has no attribute 'request'")
  end.

Fixpoint run_ops (ops : list op) (w : world)
    : list (result unit) * world * list event :=
  match ops with
  | [] => ([], w, [])
  | o :: ops' =>
      let '(r, w1, ev1) := run_op o w in
      let '(rs, w2, ev2) := run_ops ops' w1 in
      (r :: rs, w2, ev1 ++ ev2)
  end.

End Send.

(** ** The stream download generators *)

(** The generator object.  [iter_content_func] is the live chunk iterator,
    [downloaded] whatever the attribute currently holds.  ([content_length]
    and [__len__] play no part in iteration and are left out.) *)
Module StreamDownloadGenerator.
Record t := {
  request : HttpRequest.t;
  response : Response.t;
  block_size : Z;
  iter_content_func : list pull;
  downloaded : value
}.
End StreamDownloadGenerator.
Import StreamDownloadGenerator.

(** What a generator does to its collaborators. *)
Inductive gevent :=
  | ResponseClosed
  | Slept (seconds : Z)
  | PipelineRun (request : HttpRequest.t) (stream : bool) (headers : gmap string value)
  | Warned (err : exn).

Definition G := M StreamDownloadGenerator.t gevent.

(** The attributes [StreamDownloadGenerator.__init__] sets for the
    iteration (the asyncio and trio generators have the same constructor).
    The constructor also reads the length of the body with [int], which
    can raise: [stream_download] below is the constructor in full. *)
Definition new_generator (response : Response.t) : StreamDownloadGenerator.t :=
  {| request := Response.request response;
     response := response;
     block_size := Response.block_size response;
     iter_content_func :=
       RawResponse.iter_content (Response.internal_response response)
         (Response.block_size response);
     downloaded := VInt 0 |}.

Definition with_iter_content_func (it : list pull) (g : StreamDownloadGenerator.t)
    : StreamDownloadGenerator.t :=
  {| request := request g; response := response g; block_size := block_size g;
     iter_content_func := it; downloaded := downloaded g |}.

Definition with_downloaded (v : value) (g : StreamDownloadGenerator.t)
    : StreamDownloadGenerator.t :=
  {| request := request g; response := response g; block_size := block_size g;
     iter_content_func := iter_content_func g; downloaded := v |}.

Definition set_iter_content_func (it : list pull) : G unit :=
  g <- get;;
  put (with_iter_content_func it g).

Definition set_downloaded (v : value) : G unit :=
  g <- get;;
  put (with_downloaded v g).

(** [next(self.iter_content_func)]. *)
Definition next_iter_content : G (list Byte.byte) :=
  g <- get;;
  match iter_content_func g with
  | [] => raise (Exn StopIteration [] None)
  | p :: rest =>
      set_iter_content_func rest;;;
      match p with
      | Chunk b => ret b
      | Throw e => raise e
      end
  end.

(** Modelled from the spec: base_async.py is not among the sources; its
    [_iterate_response_content] pulls the next chunk for the worker thread
    and signals the end of the stream with [_ResponseStopIteration]. *)
Definition _iterate_response_content : G (list Byte.byte) :=
  try_except next_iter_content
    (fun err =>
       if isinstance err StopIteration then raise (Exn ResponseStopIteration [] None)
       else raise err).

(** [self.response.internal_response.close()]. *)
Definition close_response : G unit := emit ResponseClosed.

(** How one turn of the [while retry_active] loop ends: the method returns,
    or the loop goes round with new values of its two variables. *)
Inductive flow :=
  | Returned (v : value)
  | Continue (retry_active : bool) (retry_total : Z).

Definition retry_interval : Z := 1000.

Section Generators.

(** Modelled from the spec: the pipeline is not among the sources; it
    exposes [run(request, **overrides) -> Response], used to reissue a
    ranged request. *)
Variable pipeline_run :
  HttpRequest.t -> bool -> gmap string value -> exn + Response.t.

(** [self.pipeline.run(self.request, stream=True, headers=headers)]. *)
Definition run (request : HttpRequest.t) (stream : bool)
    (headers : gmap string value) : G Response.t :=
  emit (PipelineRun request stream headers);;;
  lift (pipeline_run request stream headers).

(** *** requests_basic.py *)

(** The body of the loop of [StreamDownloadGenerator.__next__]. *)
Definition next_turn (retry_total : Z) : G flow :=
  try_except
    (chunk <- next_iter_content;;
     if negb (truthy (VBytes chunk)) then raise (Exn StopIteration [] None)
     else
       g <- get;;
       d <- lift (add (downloaded g) (VInt (block_size g)));;
       set_downloaded d;;;
       ret (Returned (VBytes chunk)))
    (fun err =>
       if isinstance err StopIteration then
         close_response;;;
         raise (Exn StopIteration [] None)
       else if isinstance err ChunkedEncodingError || isinstance err ConnectionError then
         let retry_total := retry_total - 1 in
         if retry_total <=? 0 then ret (Continue false retry_total)
         else
           emit (Slept retry_interval);;;
           g <- get;;
           h <- lift (add (VStr "bytes=") (downloaded g));;
           h <- lift (add h (VStr "-"));;
           resp <- run (request g) true {["range" := h]};;
           if Response.status_code resp =? 416 then raise err
           else
             chunk <- next_iter_content;;
             if negb (truthy (VBytes chunk)) then raise (Exn StopIteration [] None)
             else
               g <- get;;
               d <- lift (add (downloaded g) (VBytes chunk));;
               set_downloaded d;;;
               ret (Returned (VBytes chunk))
       else if isinstance err StreamConsumedError then raise err
       else if isinstance err Exception then
         emit (Warned err);;;
         close_response;;;
         raise err
       else raise err).

(** [while retry_active: ...]; falling out of the loop returns [None].
    The outer [option] is [None] only when the fuel runs out. *)
Fixpoint next_loop (fuel : nat) (retry_active : bool) (retry_total : Z)
    : G (option value) :=
  if retry_active then
    match fuel with
    | O => ret None
    | S fuel' =>
        f <- next_turn retry_total;;
        match f with
        | Returned v => ret (Some v)
        | Continue retry_active' retry_total' =>
            next_loop fuel' retry_active' retry_total'
        end
    end
  else ret (Some VNone).

(** [StreamDownloadGenerator.__next__]: [retry_active = True],
    [retry_total = 3]. *)
Definition __next__ (fuel : nat) : G (option value) := next_loop fuel true 3.

(** *** requests_asyncio.py *)

(** The body of the loop of [AsyncioStreamDownloadGenerator.__anext__];
    the awaited executor call is the call itself. *)
Definition anext_turn (loop : value) (retry_total : Z) : G flow :=
  try_except
    (_ <- run_in_executor_method loop;;
     chunk <- _iterate_response_content;;
     if negb (truthy (VBytes chunk)) then raise (Exn ResponseStopIteration [] None)
     else
       g <- get;;
       d <- lift (add (downloaded g) (VInt (block_size g)));;
       set_downloaded d;;;
       ret (Returned (VBytes chunk)))
    (fun err =>
       if isinstance err ResponseStopIteration then
         close_response;;;
         raise (Exn StopAsyncIteration [] None)
       else if isinstance err ChunkedEncodingError || isinstance err ConnectionError then
         let retry_total := retry_total - 1 in
         if retry_total <=? 0 then ret (Continue false retry_total)
         else
           emit (Slept retry_interval);;;
           g <- get;;
           h <- lift (add (VStr "bytes=") (downloaded g));;
           h <- lift (add h (VStr "-"));;
           resp <- run (request g) true {["range" := h]};;
           if Response.status_code resp =? 416 then raise err
           else
             _ <- run_in_executor_method loop;;
             chunk <- _iterate_response_content;;
             if negb (truthy (VBytes chunk)) then raise (Exn StopIteration [] None)
             else
               g <- get;;
               d <- lift (add (downloaded g) (VBytes chunk));;
               set_downloaded d;;;
               ret (Returned (VBytes chunk))
       else if isinstance err StreamConsumedError then raise err
       else if isinstance err Exception then
         emit (Warned err);;;
         close_response;;;
         raise err
       else raise err).

Fixpoint anext_loop (fuel : nat) (loop : value) (retry_active : bool)
    (retry_total : Z) : G (option value) :=
  if retry_active then
    match fuel with
    | O => ret None
    | S fuel' =>
        f <- anext_turn loop retry_total;;
        match f with
        | Returned v => ret (Some v)
        | Continue retry_active' retry_total' =>
            anext_loop fuel' loop retry_active' retry_total'
        end
    end
  else ret (Some VNone).

(** [AsyncioStreamDownloadGenerator.__anext__], a coroutine. *)
Definition __anext__ (running : option nat) (fuel : nat) : G (option value) :=
  coroutine
    (loop <- _get_running_loop running;;
     anext_loop fuel loop true 3).

(** *** Iterating *)

(** [n] calls of [__next__] in a row, as a [for] loop makes them; the
    run returns the values the [n] calls returned, or raises what the
    first failing call raised. *)
Fixpoint pull_chunks (n : nat) (fuel : nat) : G (list value) :=
  match n with
  | O => ret []
  | S n' =>
      r <- __next__ fuel;;
      match r with
      | Some v => rest <- pull_chunks n' fuel;; ret (v :: rest)
      | None => ret []
      end
  end.

End Generators.

(** The number of bytes of a returned chunk. *)
Definition chunk_length (v : value) : Z :=
  match v with
  | VBytes b => Z.of_nat (length b)
  | _ => 0
  end.

(** [ChunkedEncodingError] or [ConnectionError]: the errors the generators
    retry on. *)
Definition transient (e : exn) : bool :=
  isinstance e ChunkedEncodingError || isinstance e ConnectionError.

(** The number of bytes handed to the caller in the chunks [vs]. *)
Definition returned_bytes (vs : list value) : Z :=
  foldr (fun v acc => chunk_length v + acc) 0 vs.

(** How many times a run closed the raw response. *)
Definition closes (evs : list gevent) : nat :=
  length (List.filter (fun e => match e with ResponseClosed => true | _ => false end) evs).

(** The ranged requests a run reissued through the pipeline. *)
Definition reissued (evs : list gevent) : list (gmap string value) :=
  omap (fun e => match e with PipelineRun _ _ h => Some h | _ => None end) evs.

(** ** Concrete scenarios *)

Module Scenario.

Definition config : ConnectionConfiguration :=
  {| verify := VBool true; timeout := VInt 100; cert := VNone; data_block_size := 4 |}.

(** [RequestsTransport()], not opened yet. *)
Definition fresh : world :=
  {| self := __init__ ∅ config; next_session := 0 |}.

(** The same transport after [open()]. *)
Definition opened : world := final (open fresh).

Definition get_blob : HttpRequest.t :=
  {| HttpRequest.method := "GET";
     HttpRequest.url := "http://example.org/blob";
     HttpRequest.headers := ∅;
     HttpRequest.data := VNone;
     HttpRequest.files := VNone |}.

(** The call [send(get_blob)] hands to the session. *)
Definition get_blob_call : Call.t :=
  {| Call.positional := [VStr "GET"; VStr "http://example.org/blob"];
     Call.keywords :=
       list_to_map
         [("headers", VDict ∅); ("data", VNone); ("files", VNone);
          ("verify", VBool true); ("timeout", VInt 100); ("cert", VNone);
          ("allow_redirects", VBool false)] |}.

(** [requests.exceptions.ConnectionError(ProtocolError('Connection aborted.'))]. *)
Definition aborted : exn :=
  Exn ConnectionError
    [ArgExn (Exn ProtocolError [ArgStr "Connection aborted."] None)] None.

(** A session on which every call is aborted. *)
Definition aborting_session : nat -> Call.t -> exn + RawResponse.t :=
  fun _ _ => inl aborted.

(** [requests.exceptions.ChunkedEncodingError(ProtocolError('Connection broken'))],
    what [iter_content] raises when the connection drops during the body. *)
Definition broken : exn :=
  Exn ChunkedEncodingError
    [ArgExn (Exn ProtocolError [ArgStr "Connection broken"] None)] None.

Definition abcdef : list Byte.byte :=
  [Byte.x61; Byte.x62; Byte.x63; Byte.x64; Byte.x65; Byte.x66].

(** A body that is already there, handed out [n] bytes at a time. *)
Fixpoint in_blocks (fuel n : nat) (body : list Byte.byte) : list pull :=
  match fuel, body with
  | O, _ | _, [] => []
  | S fuel', _ => Chunk (take n body) :: in_blocks fuel' n (drop n body)
  end.

(** [iter_content(block)] on the six-byte body. *)
Definition six_bytes (block : Z) : list pull :=
  if block <=? 0 then [Chunk abcdef]
  else in_blocks (length abcdef) (Z.to_nat block) abcdef.

Definition found : RawResponse.t :=
  {| RawResponse.status_code := 302;
     RawResponse.headers := {["location" := "http://example.org/elsewhere"]};
     RawResponse.reason := "Found";
     RawResponse.iter_content := fun _ => [] |}.

(** A session that answers every call with a redirect. *)
Definition redirecting_session : nat -> Call.t -> exn + RawResponse.t :=
  fun _ _ => inr found.

Definition ok_six_bytes : RawResponse.t :=
  {| RawResponse.status_code := 200;
     RawResponse.headers := {["content-length" := "6"]};
     RawResponse.reason := "OK";
     RawResponse.iter_content := six_bytes |}.

(** A body on which three pulls in a row break. *)
Definition ok_breaking : RawResponse.t :=
  {| RawResponse.status_code := 200;
     RawResponse.headers := {["content-length" := "6"]};
     RawResponse.reason := "OK";
     RawResponse.iter_content := fun _ => [Throw broken; Throw broken; Throw broken] |}.

(** A body whose first block arrives and whose second pull breaks; the
    iterator is finished once it has raised. *)
Definition ok_breaking_second : RawResponse.t :=
  {| RawResponse.status_code := 200;
     RawResponse.headers := {["content-length" := "6"]};
     RawResponse.reason := "OK";
     RawResponse.iter_content := fun _ => [Chunk (take 4 abcdef); Throw broken] |}.

Definition range_not_satisfiable : RawResponse.t :=
  {| RawResponse.status_code := 416;
     RawResponse.headers := ∅;
     RawResponse.reason := "Requested Range Not Satisfiable";
     RawResponse.iter_content := fun _ => [] |}.

(** A pipeline that answers every reissued request with a 416. *)
Definition pipeline_416 (request : HttpRequest.t) (stream : bool)
    (headers : gmap string value) : exn + Response.t :=
  inr (new_response RequestsTransportResponse request range_not_satisfiable 4).

Definition respond (raw : RawResponse.t) : Response.t :=
  new_response RequestsTransportResponse get_blob raw 4.

End Scenario.

(** ** More of the transports *)

(** The sessions a run created. *)
Definition sessions_created (evs : list event) : list nat :=
  omap (fun e => match e with SessionCreated sid => Some sid | _ => None end) evs.

(** [RequestsTransport.__enter__]: [self.open()]; the transport itself is
    what the [with] statement binds. *)
Definition __enter__ : T unit := open.

(** [RequestsTransport.__exit__]: [self.close()]; it returns [None], so an
    exception of the block is not swallowed. *)
Definition __exit__ : T unit := close.

(** [__aenter__] and [__aexit__] of the asyncio and trio transports:
    [super().__enter__()] and [super().__exit__()]. *)
Definition __aenter__ : T unit := __enter__.
Definition __aexit__ : T unit := __exit__.


(** The asyncio [send] finds a loop object to run on: the running loop, or
    the [loop] option when the caller gives one. *)
Definition loop_available (v : variant) (running : option nat)
    (kwargs : gmap string value) : Prop :=
  match v with
  | Asyncio =>
      exists l0 l, running = Some l0 /\ default (VLoop l0) (kwargs !! "loop") = VLoop l
  | _ => True
  end.

(** The keywords [send] writes out in its call of [session.request]. *)
Definition explicit_keywords : list string :=
  ["headers"; "data"; "files"; "verify"; "timeout"; "cert"; "allow_redirects"].

(** The options [send] takes for itself. *)
Definition connection_options : list string :=
  ["connection_verify"; "connection_timeout"; "connection_cert"].

(** The [await] of the call can give the answer of the session.  The
    asyncio [send] awaits on the loop it runs on: a loop is running, and the
    [loop] option, when the caller gives one, is that loop.  The trio
    [send] runs the call under the default limiter: there is no
    [trio_limiter] option, or it is [None].  The sync [send] does not
    await. *)
Definition awaitable (v : variant) (running : option nat)
    (kwargs : gmap string value) : Prop :=
  match v with
  | Basic => True
  | Asyncio => exists l, running = Some l /\ default (VLoop l) (kwargs !! "loop") = VLoop l
  | Trio => default VNone (kwargs !! "trio_limiter") = VNone
  end.

(** What the caller has to provide for [send] to make its call and get the
    answer: once opened the transport holds the session [sid], the await can
    give the answer, and no option names a keyword that [send] writes out
    itself. *)
Definition ready (v : variant) (running : option nat) (kwargs : gmap string value)
    (w : world) (sid : nat) : Prop :=
  session (self (final (open w))) = VSession sid /\
  awaitable v running kwargs /\
  forall k, k ∈ explicit_keywords -> kwargs !! k = None.

(** ** More of the generators *)

Section StreamDownload.

(** Python's [int] on the text of a header: the number it reads, or the
    [ValueError] it raises. *)
Variable int : string -> exn + Z.

(** [int(response.headers.get('Content-Length', 0))]: the header when the
    response has one, the integer 0 otherwise. *)
Definition content_length (response : Response.t) : exn + Z :=
  match Response.headers response !! "content-length" with
  | Some s => int s
  | None => inr 0
  end.

(** [stream_download(pipeline)] of the three response classes: the generator
    of the class, built on the response.  This is the constructor in full:
    the attributes of [new_generator], and [content_length] (which only
    [__len__] reads, and the state leaves out); when [int] raises, so does
    the constructor and no generator comes back. *)
Definition stream_download (response : Response.t) : exn + StreamDownloadGenerator.t :=
  match content_length response with
  | inl e => inl e
  | inr _ => inr (new_generator response)
  end.

End StreamDownload.

Section MoreGenerators.

Variable pipeline_run :
  HttpRequest.t -> bool -> gmap string value -> exn + Response.t.

(** *** requests_trio.py *)

(** The body of the loop of [TrioStreamDownloadGenerator.__anext__]; the
    awaited worker-thread call is the call itself. *)
Definition trio_anext_turn (retry_total : Z) : G flow :=
  try_except
    (chunk <- _iterate_response_content;;
     if negb (truthy (VBytes chunk)) then raise (Exn ResponseStopIteration [] None)
     else
       g <- get;;
       d <- lift (add (downloaded g) (VInt (block_size g)));;
       set_downloaded d;;;
       ret (Returned (VBytes chunk)))
    (fun err =>
       if isinstance err ResponseStopIteration then
         close_response;;;
         raise (Exn StopAsyncIteration [] None)
       else if isinstance err ChunkedEncodingError || isinstance err ConnectionError then
         let retry_total := retry_total - 1 in
         if retry_total <=? 0 then ret (Continue false retry_total)
         else
           emit (Slept 1000);;;
           g <- get;;
           h <- lift (add (VStr "bytes=") (downloaded g));;
           h <- lift (add h (VStr "-"));;
           resp <- run pipeline_run (request g) true {["range" := h]};;
           if Response.status_code resp =? 416 then raise err
           else
             chunk <- _iterate_response_content;;
             if negb (truthy (VBytes chunk)) then raise (Exn StopIteration [] None)
             else
               g <- get;;
               d <- lift (add (downloaded g) (VBytes chunk));;
               set_downloaded d;;;
               ret (Returned (VBytes chunk))
       else if isinstance err StreamConsumedError then raise err
       else if isinstance err Exception then
         emit (Warned err);;;
         close_response;;;
         raise err
       else raise err).

Fixpoint trio_anext_loop (fuel : nat) (retry_active : bool) (retry_total : Z)
    : G (option value) :=
  if retry_active then
    match fuel with
    | O => ret None
    | S fuel' =>
        f <- trio_anext_turn retry_total;;
        match f with
        | Returned v => ret (Some v)
        | Continue retry_active' retry_total' =>
            trio_anext_loop fuel' retry_active' retry_total'
        end
    end
  else ret (Some VNone).

(** [TrioStreamDownloadGenerator.__anext__], a coroutine. *)
Definition trio__anext__ (fuel : nat) : G (option value) :=
  coroutine (trio_anext_loop fuel true 3).

(** *** A consumer

    A consumer calls [__next__] again and again on one generator and
    survives the exceptions: the generator keeps its state from one call to
    the next. *)
Fixpoint next_calls (n fuel : nat) (g : StreamDownloadGenerator.t)
    : list (result (option value)) * StreamDownloadGenerator.t * list gevent :=
  match n with
  | O => ([], g, [])
  | S n' =>
      let '(r, g1, ev1) := __next__ pipeline_run fuel g in
      let '(rs, g2, ev2) := next_calls n' fuel g1 in
      (r :: rs, g2, ev1 ++ ev2)
  end.

End MoreGenerators.

(** The chunks among the results of a series of calls. *)
Definition chunks_of (rs : list (result (option value))) : list (list Byte.byte) :=
  omap (fun r => match r with Return (Some (VBytes b)) => Some b | _ => None end) rs.

(** The sync exception an asyncio generator turns into its own: the end of
    the stream is [StopAsyncIteration] there. *)
Definition as_async (r : result (option value)) : result (option value) :=
  match r with
  | Raise (Exn StopIteration [] None) => Raise (Exn StopAsyncIteration [] None)
  | _ => r
  end.

(** ** More concrete scenarios *)

Module Cases.

(** A transport built on a session of the caller's, not owned. *)
Definition on_callers_session : world :=
  {| self := __init__ {["session" := VSession 7; "session_owner" := VBool false]}
               Scenario.config;
     next_session := 8 |}.

(** [urllib3.exceptions.ProtocolError('Connection aborted.')], bare. *)
Definition bare_protocol_error : exn :=
  Exn ProtocolError [ArgStr "Connection aborted."] None.

(** A session whose every call raises the bare urllib3 error. *)
Definition protocol_error_session : nat -> Call.t -> exn + RawResponse.t :=
  fun _ _ => inl bare_protocol_error.

(** A session that answers every call with the six-byte body. *)
Definition serving_session : nat -> Call.t -> exn + RawResponse.t :=
  fun _ _ => inr Scenario.ok_six_bytes.

(** The call [send(get_blob, loop=<loop 1>)] hands to the session. *)
Definition get_blob_call_with_loop : Call.t :=
  {| Call.positional := [VStr "GET"; VStr "http://example.org/blob"];
     Call.keywords :=
       list_to_map
         [("headers", VDict ∅); ("data", VNone); ("files", VNone);
          ("verify", VBool false); ("timeout", VInt 100); ("cert", VNone);
          ("allow_redirects", VBool false); ("loop", VLoop 1)] |}.

(** A pipeline that is never to be called. *)
Definition no_pipeline (request : HttpRequest.t) (stream : bool)
    (headers : gmap string value) : exn + Response.t :=
  inl (Exn RuntimeError [ArgStr "no pipeline"] None).

(** A generator on the six-byte body, and one on an empty body. *)
Definition six_byte_stream : StreamDownloadGenerator.t :=
  new_generator (Scenario.respond Scenario.ok_six_bytes).

Definition empty_stream : StreamDownloadGenerator.t :=
  new_generator (Scenario.respond Scenario.found).

(** A generator whose pull raises the given exception. *)
Definition failing_stream (e : exn) : StreamDownloadGenerator.t :=
  new_generator
    (Scenario.respond
       {| RawResponse.status_code := 200;
          RawResponse.headers := ∅;
          RawResponse.reason := "OK";
          RawResponse.iter_content := fun _ => [Throw e] |}).

Definition consumed : exn := Exn StreamConsumedError [] None.
Definition bad_value : exn := Exn ValueError [ArgStr "bad chunk"] None.
Definition interrupt : exn := Exn KeyboardInterrupt [] None.

(** A generator on the breaking body whose counter a caller has set to the
    text of an offset, so that the range header can be written. *)
Definition resumable : StreamDownloadGenerator.t :=
  with_downloaded (VStr "0") (new_generator (Scenario.respond Scenario.ok_breaking)).

(** The range header of the re-fetch from offset 0. *)
Definition from_offset_0 : gmap string value := {["range" := VStr "bytes=0-"]}.

(** A raw response whose [Content-Length] is not a number. *)
Definition odd_length : RawResponse.t :=
  {| RawResponse.status_code := 200;
     RawResponse.headers := {["content-length" := "abc"]};
     RawResponse.reason := "OK";
     RawResponse.iter_content := Scenario.six_bytes |}.

(** An [int] of decimal numerals: what Python's [int] does on a text of
    digits, and its [ValueError] on any other text. *)
Fixpoint numeral (s : string) (acc : Z) : option Z :=
  match s with
  | EmptyString => Some acc
  | String a s' =>
      let n := Z.of_nat (Ascii.nat_of_ascii a) in
      if (48 <=? n) && (n <=? 57) then numeral s' (10 * acc + (n - 48)) else None
  end.

Definition decimal (s : string) : exn + Z :=
  match s, numeral s 0 with
  | String _ _, Some n => inr n
  | _, _ => inl (builtin ValueError "invalid literal for int() with base 10")
  end.

End Cases.

(** * Properties *)

(** ** Exception classes *)

(** Two tests that agree on every class find the same thing among the bases. *)
Lemma existsb_pointwise (bs : list exn_class) (p q : exn_class -> bool)
    (Hpq : forall b, p b = q b) :
  existsb p bs = existsb q bs.
Proof.
  induction bs as [|b bs IH]; simpl; [|rewrite (Hpq b), IH]; reflexivity.
Qed.

Lemma issubclass_depth_settled (c d : exn_class) :
  issubclass_depth 7 c d = issubclass_depth 6 c d.
Proof. destruct c, d; reflexivity. Qed.

(** Six steps reach every base class: a deeper search finds nothing more. *)
Lemma issubclass_depth_enough (n : nat) (c d : exn_class) :
  issubclass_depth (n + 6) c d = issubclass c d.
Proof.
  unfold issubclass. revert c. induction n as [|n IH]; intros c; [reflexivity|].
  rewrite <- issubclass_depth_settled.
  change (issubclass_depth (S n + 6) c d)
    with (bool_decide (c = d) || existsb (fun b => issubclass_depth (n + 6) b d) (bases c)).
  change (issubclass_depth 7 c d)
    with (bool_decide (c = d) || existsb (fun b => issubclass_depth 6 b d) (bases c)).
  f_equal. apply existsb_pointwise. exact IH.
Qed.

Lemma ReadTimeout_not_NewConnectionError (e : exn) :
  isinstance e ReadTimeout = true -> isinstance e NewConnectionError = false.
Proof. destruct e as [c a i]; destruct c; vm_compute; congruence. Qed.

Lemma ConnectionError_not_earlier (e : exn) :
  isinstance e ConnectionError = true ->
  isinstance e NewConnectionError = false /\ isinstance e ReadTimeout = false.
Proof. destruct e as [c a i]; destruct c; vm_compute; intuition congruence. Qed.

Lemma RequestException_not_NewConnectionError (e : exn) :
  isinstance e RequestException = true -> isinstance e NewConnectionError = false.
Proof. destruct e as [c a i]; destruct c; vm_compute; congruence. Qed.

(** ** [open] and [close] *)

Lemma open_spec (w : world) :
  exists w1 ev,
    open w = (Return tt, w1, ev) /\
    http_calls ev = [] /\
    connection_config (self w1) = connection_config (self w) /\
    (truthy (session (self w)) = false -> truthy (_session_owner (self w)) = false ->
       w1 = w /\ ev = []).
Proof.
  destruct w as [[s o c u] n]. unfold open, bind, get. cbn [self session _session_owner].
  destruct (negb (truthy s) && truthy o) eqn:E.
  - eexists _, _. split; [reflexivity|]. cbn.
    split; [reflexivity|]. split; [reflexivity|].
    intros Hs Ho. rewrite Hs, Ho in E. discriminate.
  - eexists _, _. split; [reflexivity|]. cbn.
    split; [reflexivity|]. split; [reflexivity|]. intros _ _. split; reflexivity.
Qed.

Section SendProperties.
Variable session_request : nat -> Call.t -> exn + RawResponse.t.

Lemma http_calls_app (a b : list event) :
  http_calls (a ++ b) = http_calls a ++ http_calls b.
Proof. unfold http_calls. apply omap_app. Qed.

Lemma keyword_arguments_cases (explicit : list (string * value)) (kwargs : gmap string value) :
  keyword_arguments explicit kwargs
    = inl (builtin TypeError "got multiple values for keyword argument") \/
  keyword_arguments explicit kwargs = inr (list_to_map explicit ∪ kwargs).
Proof. unfold keyword_arguments. destruct (existsb _ _); auto. Qed.

Lemma azure_error_carries (k : exn_class) (err : exn) :
  cls_of (azure_error k err) = k /\ inner_exception_of (azure_error k err) = Some err.
Proof. split; reflexivity. Qed.

Lemma except_clauses_agree (v : variant) (err : exn) :
  except_clauses v err = except_basic err.
Proof. destruct v; reflexivity. Qed.

Lemma except_basic_wraps (err error : exn) :
  except_basic err = Some error ->
  error = azure_error ServiceRequestError err \/
  error = azure_error ServiceResponseError err.
Proof.
  unfold except_basic.
  destruct (isinstance err NewConnectionError); [intros [= <-]; auto|].
  destruct (isinstance err ReadTimeout); [intros [= <-]; auto|].
  destruct (isinstance err ConnectionError).
  - destruct (first_arg_isinstance err ProtocolError); intros [= <-]; auto.
  - destruct (isinstance err RequestException); [intros [= <-]; auto|discriminate].
Qed.

(** A service error leaves a coroutine as it is. *)
Lemma pep479_wrapped {A} (err error : exn) :
  except_basic err = Some error -> @pep479 A (Raise error) = Raise error.
Proof. intros E. destruct (except_basic_wraps err error E) as [-> | ->]; reflexivity. Qed.

Lemma pep479_other {A} (e : exn) :
  isinstance e StopIteration = false -> @pep479 A (Raise e) = Raise e.
Proof. intros H. unfold pep479. rewrite H. reflexivity. Qed.

Lemma pep479_raises {A} (e : exn) : exists e', @pep479 A (Raise e) = Raise e'.
Proof. unfold pep479. destruct (isinstance e StopIteration); eexists; reflexivity. Qed.

Ltac outline_leaf Hx avail :=
  cbv beta iota zeta in Hx; subst; cbn [events outcome final fst snd default];
  rewrite ?app_nil_r, ?app_nil_l;
  split; [reflexivity|right; split; [avail|split; reflexivity]].

Ltac outline_call Hx exc avail :=
  cbv beta iota zeta delta [bind try_except get ret raise lift emit put perform
      raise_or_wrap session_request_method run_in_executor_method pop
      await_run_in_executor run_sync_in_worker_thread coroutine] in Hx;
  cbn [self session connection_config] in Hx;
  try (change (exc (builtin AttributeError "object has no attribute 'request'"))
         with (@None exn) in Hx;
       outline_leaf Hx avail);
  try (match type of Hx with context [keyword_arguments ?a ?b] =>
    let Hk := fresh "Hk" in
    destruct (keyword_arguments_cases a b) as [Hk|Hk]; rewrite Hk in Hx |- *; clear Hk end;
    [ change (exc (builtin TypeError "got multiple values for keyword argument"))
        with (@None exn) in Hx;
      outline_leaf Hx avail
    | cbv beta iota zeta in Hx |- * ]).

(** What [send] does, case by case: without a loop object or without a
    session it raises before any call; a doubled keyword is a [TypeError]
    before any call; otherwise the call is issued and the outcome is the
    answer of the session read through the [except] clauses, unless the
    [await] cannot give it: on another loop than its own the asyncio [send]
    has made the call and raises, under a limiter that is none the trio
    [send] raises before the call. *)
Lemma send_outline (v : variant) (running : option nat) (request : HttpRequest.t)
    (kwargs : gmap string value) (w : world) :
  let x := send session_request v running request kwargs w in
  let w1 := final (open w) in
  let cfg := connection_config (self w) in
  let rest :=
    delete "connection_cert"
      (delete "connection_timeout" (delete "connection_verify" kwargs)) in
  let explicit :=
    [("headers", VDict (HttpRequest.headers request));
     ("data", HttpRequest.data request);
     ("files", HttpRequest.files request);
     ("verify", default (verify cfg) (kwargs !! "connection_verify"));
     ("timeout", default (timeout cfg)
                   (delete "connection_verify" kwargs !! "connection_timeout"));
     ("cert", default (cert cfg)
                (delete "connection_timeout" (delete "connection_verify" kwargs)
                   !! "connection_cert"));
     ("allow_redirects", VBool false)] in
  final x = w1 /\
  ((~ loop_available v running kwargs /\
    events x = events (open w) /\
    exists e, outcome x = Raise e /\
              (cls_of e = RuntimeError \/ cls_of e = AttributeError)) \/
   (loop_available v running kwargs /\
    match session (self w1) with
    | VSession sid =>
        match keyword_arguments explicit rest with
        | inl e => events x = events (open w) /\ outcome x = Raise e
        | inr kw =>
            let c := {| Call.positional := [VStr (HttpRequest.method request);
                                            VStr (HttpRequest.url request)];
                        Call.keywords := kw |} in
            (awaitable v running kwargs ->
               events x = events (open w) ++ [HttpCall sid c] /\
               match session_request sid c with
               | inl err =>
                   (exists e, outcome x = Raise e) /\
                   (isinstance err StopIteration = false ->
                      outcome x = Raise (default err (except_clauses v err)))
               | inr raw =>
                   outcome x = Return (new_response (response_class_of v) request raw
                                         (data_block_size cfg))
               end) /\
            (~ awaitable v running kwargs ->
               match v with
               | Trio =>
                   events x = events (open w) /\
                   outcome x =
                     Raise (builtin AttributeError
                              "object has no attribute 'acquire_on_behalf_of'")
               | _ =>
                   events x = events (open w) ++ [HttpCall sid c] /\
                   outcome x =
                     Raise (builtin RuntimeError
                              "Task got Future attached to a different loop")
               end)
        end
    | _ =>
        events x = events (open w) /\
        outcome x = Raise (builtin AttributeError "object has no attribute 'request'")
    end)).
Proof.
  intros x w1 cfg rest explicit.
  assert (Hx : x = send session_request v running request kwargs w) by reflexivity.
  clearbody x.
  destruct (open_spec w) as (w1' & ev0 & Hopen & _ & Hcfg & _).
  assert (Hw1 : w1 = w1') by (subst w1; rewrite Hopen; reflexivity).
  clearbody w1. subst w1'. subst cfg rest explicit.
  rewrite Hopen. cbn [events snd].
  destruct w1 as [[s o cf u] n]. cbn [self session connection_config] in *.
  subst cf.
  destruct v; cbn [send except_clauses response_class_of loop_available awaitable] in *.
  - unfold send_basic in Hx. unfold bind at 1 in Hx. rewrite Hopen in Hx.
    destruct s; outline_call Hx except_basic ltac:(exact I).
    match type of Hx with context [session_request ?a ?b] =>
      destruct (session_request a b) as [err|raw] end;
      [destruct (except_basic err) as [error|] eqn:E|];
      cbv beta iota zeta in Hx; subst;
      cbn [events outcome final fst snd default from_option id];
      rewrite ?app_nil_r, ?app_nil_l;
      (split; [reflexivity|right; split; [exact I|]]);
      (split; [intros _; split; [reflexivity|]|intros H; exfalso; apply H; exact I]);
      try reflexivity;
      (split; [eexists; reflexivity|intros _; reflexivity]).
  - unfold send_asyncio, coroutine in Hx. unfold bind at 1 in Hx. rewrite Hopen in Hx.
    destruct running as [lid|]; unfold _get_running_loop in Hx.
    + destruct (kwargs !! "loop") as [lv|] eqn:Hl; cbn [default from_option id] in Hx |- *;
        [destruct lv|].
      all: try (destruct s;
                outline_call Hx except_asyncio
                  ltac:(eexists _, _; split; [reflexivity|reflexivity])).
      all: try (cbv beta iota zeta delta [bind try_except get ret raise lift emit put
                  run_in_executor_method raise_or_wrap] in Hx;
        change (except_asyncio
                  (builtin AttributeError "object has no attribute 'run_in_executor'"))
          with (@None exn) in Hx;
        cbv beta iota zeta in Hx; subst; cbn [events outcome final fst snd];
        rewrite ?app_nil_r;
        (split; [reflexivity|left; split; [|split; [reflexivity|]]]);
        [ intros (l0 & l & [= <-] & H); discriminate H
        | eexists; split; [reflexivity|right; reflexivity] ]).
      all: match type of Hx with context [session_request ?a ?b] =>
             destruct (session_request a b) as [err|raw] end.
      all: cbv beta iota zeta delta [future_result is_loop] in Hx.
      all: match type of Hx with context [Nat.eqb ?p ?q] =>
             destruct (Nat.eqb_spec p q) as [Heq|Hne] end.
      all: try (exfalso; apply Hne; reflexivity).
      all: try (match goal with e0 : exn |- _ =>
                  destruct (isinstance e0 StopIteration) eqn:Hs end).
      all: cbv beta iota zeta in Hx.
      all: try change (except_asyncio
                         (builtin RuntimeError "StopIteration cannot be raised into a Future"))
             with (@None exn) in Hx.
      all: try change (except_asyncio
                         (builtin RuntimeError "Task got Future attached to a different loop"))
             with (@None exn) in Hx.
      all: try (match type of Hx with context [except_asyncio ?e0] =>
                  destruct (except_asyncio e0) as [error|] eqn:E end).
      all: cbv beta iota zeta in Hx; subst;
        cbn [events outcome final fst snd default from_option id];
        rewrite ?app_nil_r, ?app_nil_l.
      all: split; [reflexivity|right; split; [eexists _, _; split; reflexivity|]].
      all: split; [intros (l' & Hl1 & Hl2)|intros Hn].
      all: try (exfalso; injection Hl1 as <-; injection Hl2 as Hl2; congruence).
      all: try (exfalso; apply Hn; eexists; split; reflexivity).
      all: try (split; reflexivity).
      all: split; [reflexivity|].
      all: try reflexivity.
      all: split; [apply pep479_raises|intros Hf; try discriminate Hf].
      all: try (rewrite (pep479_wrapped _ _ E); reflexivity).
      all: rewrite (pep479_other _ Hs); reflexivity.
    + cbv beta iota zeta delta [bind raise] in Hx. subst. cbn [events outcome final fst snd].
      rewrite ?app_nil_r.
      split; [reflexivity|left; split; [|split; [reflexivity|]]].
      * intros (l0 & l & H & _). discriminate H.
      * eexists. split; [reflexivity|left; reflexivity].
  - unfold send_trio, coroutine in Hx. unfold bind at 1 in Hx. rewrite Hopen in Hx.
    destruct (kwargs !! "trio_limiter") as [lv|] eqn:Hl;
      cbn [default from_option id] in Hx |- *; [destruct lv|].
    all: destruct s; outline_call Hx except_trio ltac:(exact I).
    all: try (change (except_trio
                        (builtin AttributeError
                           "object has no attribute 'acquire_on_behalf_of'"))
                with (@None exn) in Hx;
              cbv beta iota zeta in Hx; subst;
              cbn [events outcome final fst snd]; rewrite ?app_nil_r, ?app_nil_l;
              (split; [reflexivity|right; split; [exact I|]]);
              (split; [intros H; discriminate H|intros _; split; reflexivity])).
    all: match type of Hx with context [session_request ?a ?b] =>
           destruct (session_request a b) as [err|raw] end;
      [destruct (except_trio err) as [error|] eqn:E|];
      cbv beta iota zeta in Hx; subst;
      cbn [events outcome final fst snd default from_option id];
      rewrite ?app_nil_r, ?app_nil_l;
      (split; [reflexivity|right; split; [exact I|]]);
      (split; [intros _; split; [reflexivity|]
              |intros H; exfalso; apply H; reflexivity]);
      try reflexivity.
    all: split; [apply pep479_raises|intros Hs].
    all: try (rewrite (pep479_wrapped _ _ E); reflexivity).
    all: rewrite (pep479_other _ Hs); reflexivity.
Qed.

Lemma awaitable_available (v : variant) (running : option nat)
    (kwargs : gmap string value) :
  awaitable v running kwargs -> loop_available v running kwargs.
Proof.
  destruct v; [exact id| |intros _; exact I].
  intros (l & H1 & H2). exists l, l. auto.
Qed.

Lemma awaitable_or_not (v : variant) (running : option nat)
    (kwargs : gmap string value) :
  awaitable v running kwargs \/ ~ awaitable v running kwargs.
Proof.
  destruct v; cbn [awaitable].
  - left. exact I.
  - destruct running as [l0|]; [|right; intros (l & H & _); discriminate H].
    destruct (kwargs !! "loop") as [lv|]; cbn [default from_option id].
    + destruct lv;
        try (right; intros (l & _ & H); discriminate H).
      destruct (Nat.eq_dec lid l0) as [->|Hne].
      * left. exists l0. split; reflexivity.
      * right. intros (l & [= <-] & [= H]). contradiction.
    + left. exists l0. split; reflexivity.
  - destruct (default VNone (kwargs !! "trio_limiter"));
      first [left; reflexivity|right; discriminate].
Qed.

Lemma keyword_arguments_fresh (explicit : list (string * value))
    (kwargs : gmap string value) :
  (forall kv, kv ∈ explicit -> kwargs !! kv.1 = None) ->
  keyword_arguments explicit kwargs = inr (list_to_map explicit ∪ kwargs).
Proof.
  intros H. unfold keyword_arguments.
  assert (E : existsb (fun kv => bool_decide (is_Some (kwargs !! kv.1))) explicit = false).
  { induction explicit as [|kv l IH]; [reflexivity|].
    cbn [existsb]. rewrite (H kv) by (left).
    rewrite IH by (intros kv' Hin; apply H; right; exact Hin).
    reflexivity. }
  rewrite E. reflexivity.
Qed.

(** The events of a [send]: those of [open], and then at most the one
    call, on the session the transport holds, with the arguments [send]
    writes out. *)
Lemma send_events (v : variant) (running : option nat) (request : HttpRequest.t)
    (kwargs : gmap string value) (w : world) :
  let x := send session_request v running request kwargs w in
  let cfg := connection_config (self w) in
  events x = events (open w) \/
  exists sid,
    session (self (final (open w))) = VSession sid /\
    events x = events (open w) ++
      [HttpCall sid
         {| Call.positional := [VStr (HttpRequest.method request);
                                VStr (HttpRequest.url request)];
            Call.keywords :=
              list_to_map
                [("headers", VDict (HttpRequest.headers request));
                 ("data", HttpRequest.data request);
                 ("files", HttpRequest.files request);
                 ("verify", default (verify cfg) (kwargs !! "connection_verify"));
                 ("timeout", default (timeout cfg) (kwargs !! "connection_timeout"));
                 ("cert", default (cert cfg) (kwargs !! "connection_cert"));
                 ("allow_redirects", VBool false)]
              ∪ delete "connection_cert"
                  (delete "connection_timeout" (delete "connection_verify" kwargs)) |}].
Proof.
  intros x cfg. subst x cfg.
  destruct (send_outline v running request kwargs w) as [_ Hcases].
  destruct Hcases as [(_ & Hev & _)|(_ & Hcase)]; [left; exact Hev|].
  destruct (session (self (final (open w)))) as [| | | | | |sid|];
    try (left; exact (proj1 Hcase)).
  match type of Hcase with context [keyword_arguments ?a ?b] =>
    destruct (keyword_arguments_cases a b) as [Hk|Hk]; rewrite Hk in Hcase end.
  { left. exact (proj1 Hcase). }
  cbv zeta in Hcase. rewrite !lookup_delete_ne in Hcase by discriminate.
  destruct Hcase as [Hyes Hno].
  destruct (awaitable_or_not v running kwargs) as [Ha|Ha].
  - right. exists sid. split; [reflexivity|]. exact (proj1 (Hyes Ha)).
  - specialize (Hno Ha). destruct v.
    + right. exists sid. split; [reflexivity|]. exact (proj1 Hno).
    + right. exists sid. split; [reflexivity|]. exact (proj1 Hno).
    + left. exact (proj1 Hno).
Qed.

(** The calls of a [send]: none, or one, with [allow_redirects=False]. *)
Lemma send_calls (v : variant) (running : option nat) (request : HttpRequest.t)
    (kwargs : gmap string value) (w : world) :
  let x := send session_request v running request kwargs w in
  http_calls (events x) = [] \/
  exists sid c, http_calls (events x) = [(sid, c)] /\
                Call.keywords c !! "allow_redirects" = Some (VBool false).
Proof.
  intros x. subst x.
  destruct (open_spec w) as (w1 & ev0 & Hopen & Hnone & _ & _).
  destruct (send_events v running request kwargs w) as [Hev|(sid & _ & Hev)];
    rewrite Hev, ?http_calls_app, Hopen; cbn [events snd]; rewrite Hnone.
  - left. reflexivity.
  - right. eexists _, _. split; [reflexivity|].
    apply lookup_union_Some_l. reflexivity.
Qed.

(** A [send] that is given a session, a loop and no doubled keyword, and
    whose [await] can give the answer, makes its call, and the outcome is
    the answer of the session read through the [except] clauses; the asyncio
    [send] on another loop than its own makes the call all the same, and
    raises. *)
Lemma send_issues_call (v : variant) (running : option nat) (request : HttpRequest.t)
    (kwargs : gmap string value) (w : world) (sid : nat) :
  session (self (final (open w))) = VSession sid ->
  loop_available v running kwargs ->
  (forall k, k ∈ explicit_keywords -> kwargs !! k = None) ->
  let x := send session_request v running request kwargs w in
  (awaitable v running kwargs ->
     exists c,
       http_calls (events x) = [(sid, c)] /\
       Call.keywords c !! "allow_redirects" = Some (VBool false) /\
       match session_request sid c with
       | inl err =>
           (exists e, outcome x = Raise e) /\
           (isinstance err StopIteration = false ->
              outcome x = Raise (default err (except_basic err)))
       | inr raw =>
           outcome x = Return (new_response (response_class_of v) request raw
                                 (data_block_size (connection_config (self w))))
       end) /\
  (~ awaitable v running kwargs -> v = Asyncio ->
     (exists c, http_calls (events x) = [(sid, c)]) /\
     outcome x = Raise (builtin RuntimeError "Task got Future attached to a different loop")).
Proof.
  intros Hs Hloop Hfresh x. subst x.
  destruct (send_outline v running request kwargs w) as [_ Hcases].
  destruct (open_spec w) as (w1 & ev0 & Hopen & Hnone & _ & _).
  rewrite Hopen in Hcases, Hs. cbn [events final fst snd] in Hcases, Hs.
  destruct Hcases as [(Hno & _)|(_ & Hcase)]; [contradiction|].
  rewrite Hs in Hcase.
  match type of Hcase with context [keyword_arguments ?a ?b] =>
    rewrite (keyword_arguments_fresh a b) in Hcase end.
  - cbv zeta in Hcase. destruct Hcase as (Hyes & Hno). split.
    + intros Ha. destruct (Hyes Ha) as [Hev Hout].
      eexists. rewrite Hev, http_calls_app, Hnone.
      split; [reflexivity|]. split; [apply lookup_union_Some_l; reflexivity|].
      destruct (session_request sid _) as [err|raw]; [|exact Hout].
      rewrite <- (except_clauses_agree v). exact Hout.
    + intros Ha ->. destruct (Hno Ha) as [Hev Hout].
      split; [|exact Hout].
      eexists. rewrite Hev, http_calls_app, Hnone. reflexivity.
  - intros kv Hin.
    rewrite !lookup_delete_ne.
    + apply Hfresh. unfold explicit_keywords.
      repeat (apply elem_of_cons in Hin as [->|Hin]); [..|inversion Hin];
        cbn [fst]; repeat constructor.
    + repeat (apply elem_of_cons in Hin as [->|Hin]); [..|inversion Hin]; discriminate.
    + repeat (apply elem_of_cons in Hin as [->|Hin]); [..|inversion Hin]; discriminate.
    + repeat (apply elem_of_cons in Hin as [->|Hin]); [..|inversion Hin]; discriminate.
Qed.

Lemma send_ready (v : variant) (running : option nat) (request : HttpRequest.t)
    (kwargs : gmap string value) (w : world) (sid : nat) :
  ready v running kwargs w sid ->
  let x := send session_request v running request kwargs w in
  exists c,
    http_calls (events x) = [(sid, c)] /\
    Call.keywords c !! "allow_redirects" = Some (VBool false) /\
    match session_request sid c with
    | inl err =>
        (exists e, outcome x = Raise e) /\
        (isinstance err StopIteration = false ->
           outcome x = Raise (default err (except_basic err)))
    | inr raw =>
        outcome x = Return (new_response (response_class_of v) request raw
                              (data_block_size (connection_config (self w))))
    end.
Proof.
  intros (Hs & Hloop & Hfresh) x. subst x.
  exact (proj1 (send_issues_call v running request kwargs w sid Hs
                  (awaitable_available v running kwargs Hloop) Hfresh) Hloop).
Qed.

Lemma StopIteration_unclassified (err : exn) :
  isinstance err NewConnectionError = true \/ isinstance err RequestException = true ->
  isinstance err StopIteration = false.
Proof. destruct err as [c a i]; destruct c; vm_compute; intuition congruence. Qed.

(** An error that one of the [except] clauses names is wrapped in a service
    error that carries it. *)
Lemma classified_wraps (err : exn) :
  isinstance err NewConnectionError = true \/ isinstance err RequestException = true ->
  exists error,
    except_basic err = Some error /\
    (cls_of error = ServiceRequestError \/ cls_of error = ServiceResponseError) /\
    inner_exception_of error = Some err.
Proof.
  intros H. destruct (except_basic err) as [error|] eqn:E.
  - exists error. split; [reflexivity|].
    destruct (except_basic_wraps err error E) as [-> | ->];
      (split; [|reflexivity]); [left|right]; reflexivity.
  - exfalso. revert E. unfold except_basic.
    destruct H as [H|H].
    + rewrite H. discriminate.
    + destruct (isinstance err NewConnectionError); [discriminate|].
      destruct (isinstance err ReadTimeout); [discriminate|].
      destruct (isinstance err ConnectionError);
        [destruct (first_arg_isinstance err ProtocolError); discriminate|].
      rewrite H. discriminate.
Qed.

(** C1: a [send] that is [ready] (it is given a session and no doubled
    keyword, and its [await] can give the answer: the asyncio [send] is on
    its own loop, the trio [send] under the default limiter) issues its HTTP
    call, and when the session fails that call with [err], what [send]
    raises is decided by the class of [err]: a
    [NewConnectionError] gives [ServiceRequestError]; a [ReadTimeout] gives
    [ServiceResponseError]; a [ConnectionError] whose first argument is a
    [ProtocolError] gives [ServiceResponseError]; any other
    [ConnectionError], and any other [RequestException], gives
    [ServiceRequestError].  The error raised is [k(err, error=err)]: it is
    one of the two service errors and carries [err] as its inner error.
    This holds for the sync, asyncio and trio transports. *)
Theorem send_classifies_failure (v : variant) (running : option nat)
    (request : HttpRequest.t) (kwargs : gmap string value) (w : world)
    (sid : nat) (err : exn) :
  ready v running kwargs w sid ->
  (forall c, http_calls (events (send session_request v running request kwargs w))
               = [(sid, c)] ->
             session_request sid c = inl err) ->
  let x := send session_request v running request kwargs w in
  (exists c, http_calls (events x) = [(sid, c)]) /\
  (isinstance err NewConnectionError = true ->
     outcome x = Raise (azure_error ServiceRequestError err)) /\
  (isinstance err ReadTimeout = true ->
     outcome x = Raise (azure_error ServiceResponseError err)) /\
  (isinstance err ConnectionError = true ->
   first_arg_isinstance err ProtocolError = true ->
     outcome x = Raise (azure_error ServiceResponseError err)) /\
  (isinstance err ConnectionError = true ->
   first_arg_isinstance err ProtocolError = false ->
     outcome x = Raise (azure_error ServiceRequestError err)) /\
  (isinstance err RequestException = true ->
   isinstance err ReadTimeout = false ->
   isinstance err ConnectionError = false ->
     outcome x = Raise (azure_error ServiceRequestError err)) /\
  (isinstance err NewConnectionError = true \/ isinstance err RequestException = true ->
   exists e,
     outcome x = Raise e /\
     (cls_of e = ServiceRequestError \/ cls_of e = ServiceResponseError) /\
     inner_exception_of e = Some err).
Proof.
  intros Hready Herr x. subst x.
  destruct (send_ready v running request kwargs w sid Hready) as (c & Hcalls & _ & Hout).
  rewrite (Herr c Hcalls) in Hout. destruct Hout as [_ Hout].
  split; [exists c; exact Hcalls|].
  assert (Hr : isinstance err NewConnectionError = true \/
               isinstance err RequestException = true ->
               outcome (send session_request v running request kwargs w)
               = Raise (default err (except_basic err))).
  { intros H. apply Hout. apply StopIteration_unclassified. exact H. }
  clear Hout Herr Hcalls Hready.
  assert (Hsub : forall k, k = ReadTimeout \/ k = ConnectionError ->
                 isinstance err k = true -> isinstance err RequestException = true).
  { intros k Hk. destruct err as [c0 a i].
    destruct Hk as [-> | ->]; destruct c0; vm_compute; congruence. }
  split; [|split; [|split; [|split; [|split]]]].
  - intros H. rewrite Hr by (left; exact H).
    unfold except_basic. rewrite H. reflexivity.
  - intros H. rewrite Hr by (right; apply (Hsub ReadTimeout); auto).
    unfold except_basic.
    rewrite (ReadTimeout_not_NewConnectionError _ H), H. reflexivity.
  - intros H Ha. rewrite Hr by (right; apply (Hsub ConnectionError); auto).
    unfold except_basic.
    destruct (ConnectionError_not_earlier _ H) as [-> ->].
    rewrite H, Ha. reflexivity.
  - intros H Ha. rewrite Hr by (right; apply (Hsub ConnectionError); auto).
    unfold except_basic.
    destruct (ConnectionError_not_earlier _ H) as [-> ->].
    rewrite H, Ha. reflexivity.
  - intros H H1 H2. rewrite Hr by (right; exact H).
    unfold except_basic.
    rewrite (RequestException_not_NewConnectionError _ H), H, H1, H2.
    reflexivity.
  - intros H. rewrite (Hr H).
    destruct (classified_wraps err H) as (error & -> & Hcls & Hinner).
    exists error. split; [reflexivity|]. split; assumption.
Qed.

(** C6: whatever the request and the keyword options, a [send] of any of
    the three transports issues at most one HTTP call and every call it
    issues has [allow_redirects=False]; and a [send] that is [ready] (it
    is given a session and no doubled keyword, and its [await] can give the
    answer: the asyncio [send] is on its own loop, the trio [send] under the
    default limiter) does issue the call and returns the response the
    session answers with (a 302, say) as it is, status and headers
    intact. *)
Theorem send_never_follows_redirects (v : variant) (running : option nat)
    (request : HttpRequest.t) (kwargs : gmap string value) (w : world) :
  let x := send session_request v running request kwargs w in
  (length (http_calls (events x)) <= 1)%nat /\
  (forall sid c, (sid, c) ∈ http_calls (events x) ->
     Call.keywords c !! "allow_redirects" = Some (VBool false)) /\
  (forall sid raw,
     ready v running kwargs w sid ->
     (forall c, http_calls (events x) = [(sid, c)] -> session_request sid c = inr raw) ->
     exists c resp,
       http_calls (events x) = [(sid, c)] /\
       Call.keywords c !! "allow_redirects" = Some (VBool false) /\
       outcome x = Return resp /\
       Response.internal_response resp = raw /\
       Response.status_code resp = RawResponse.status_code raw /\
       Response.headers resp = RawResponse.headers raw).
Proof.
  intros x. subst x. split; [|split].
  - destruct (send_calls v running request kwargs w) as [->|(sid & c & -> & _)];
      cbn; lia.
  - intros sid c Hin.
    destruct (send_calls v running request kwargs w) as [Hnone|(sid' & c' & Hone & Hallow)].
    + rewrite Hnone in Hin. inversion Hin.
    + rewrite Hone in Hin. apply list_elem_of_singleton in Hin.
      injection Hin as -> ->. exact Hallow.
  - intros sid raw Hready Hraw.
    destruct (send_ready v running request kwargs w sid Hready)
      as (c & Hcalls & Hallow & Hout).
    rewrite (Hraw c Hcalls) in Hout.
    eexists c, _. split; [exact Hcalls|]. split; [exact Hallow|].
    split; [exact Hout|]. repeat split.
Qed.

(** C7: the sync, asyncio and trio transports classify a failure alike:
    two [send]s that are each [ready] (given a session and no doubled
    keyword, the asyncio [send] on its own loop, the trio [send] under the
    default limiter) both issue their HTTP call, and when the session fails both
    calls with the same exception (one that can cross an [await]: anything
    but a [StopIteration]) the two [send]s raise the same error; for an
    exception that an [except] clause names, that error is a
    [ServiceRequestError] or a [ServiceResponseError] carrying it. *)
Theorem variants_classify_alike (v1 v2 : variant) (running1 running2 : option nat)
    (request1 request2 : HttpRequest.t) (kwargs1 kwargs2 : gmap string value)
    (w1 w2 : world) (sid1 sid2 : nat) (err : exn) :
  ready v1 running1 kwargs1 w1 sid1 ->
  ready v2 running2 kwargs2 w2 sid2 ->
  (forall c, http_calls (events (send session_request v1 running1 request1 kwargs1 w1))
               = [(sid1, c)] ->
             session_request sid1 c = inl err) ->
  (forall c, http_calls (events (send session_request v2 running2 request2 kwargs2 w2))
               = [(sid2, c)] ->
             session_request sid2 c = inl err) ->
  isinstance err StopIteration = false ->
  (exists c, http_calls (events (send session_request v1 running1 request1 kwargs1 w1))
             = [(sid1, c)]) /\
  (exists c, http_calls (events (send session_request v2 running2 request2 kwargs2 w2))
             = [(sid2, c)]) /\
  exists e,
    outcome (send session_request v1 running1 request1 kwargs1 w1) = Raise e /\
    outcome (send session_request v2 running2 request2 kwargs2 w2) = Raise e /\
    (isinstance err NewConnectionError = true \/ isinstance err RequestException = true ->
     (cls_of e = ServiceRequestError \/ cls_of e = ServiceResponseError) /\
     inner_exception_of e = Some err).
Proof.
  intros Hr1 Hr2 He1 He2 Hs.
  destruct (send_ready v1 running1 request1 kwargs1 w1 sid1 Hr1) as (c1 & Hc1 & _ & Ho1).
  destruct (send_ready v2 running2 request2 kwargs2 w2 sid2 Hr2) as (c2 & Hc2 & _ & Ho2).
  rewrite (He1 c1 Hc1) in Ho1. rewrite (He2 c2 Hc2) in Ho2.
  split; [exists c1; exact Hc1|]. split; [exists c2; exact Hc2|].
  exists (default err (except_basic err)).
  split; [exact (proj2 Ho1 Hs)|]. split; [exact (proj2 Ho2 Hs)|].
  intros H. destruct (classified_wraps err H) as (error & -> & Hcls & Hinner).
  split; assumption.
Qed.

End SendProperties.

(** ** The session life cycle *)

Section LifeCycle.
Variable session_request : nat -> Call.t -> exn + RawResponse.t.

(** C8: on a transport that owns its session and has opened it, the first
    [close()] releases the session and clears both the session and the
    ownership flag; the second [close()] returns normally, does nothing
    and leaves the state as it is, so the session is released once. *)
Theorem close_twice_is_safe (w : world) (sid : nat) :
  session (self w) = VSession sid ->
  truthy (_session_owner (self w)) = true ->
  let x1 := close w in
  let x2 := close (final x1) in
  outcome x1 = Return tt /\
  events x1 = [SessionClosed sid] /\
  session (self (final x1)) = VNone /\
  _session_owner (self (final x1)) = VBool false /\
  outcome x2 = Return tt /\
  events x2 = [] /\
  final x2 = final x1 /\
  sessions_closed (events ((close;;; close) w)) = [sid].
Proof.
  destruct w as [[s o c u] n]. cbn [self session _session_owner].
  intros -> Ho. unfold close, bind, get.
  cbn [self session _session_owner]. rewrite Ho. cbn.
  repeat split; reflexivity.
Qed.

Lemma open_closed (w : world) :
  session (self w) = VNone ->
  truthy (_session_owner (self w)) = false ->
  open w = (Return tt, w, []).
Proof.
  intros Hs Ho. destruct (open_spec w) as (w1 & ev & Hopen & _ & _ & Hsame).
  rewrite Hs in Hsame. destruct (Hsame eq_refl Ho) as [-> ->]. exact Hopen.
Qed.

Lemma close_closed (w : world) :
  truthy (_session_owner (self w)) = false ->
  close w = (Return tt, w, []).
Proof. intros Ho. unfold close, bind, get. rewrite Ho. reflexivity. Qed.

Lemma send_closed (v : variant) (running : option nat) (request : HttpRequest.t)
    (kwargs : gmap string value) (w : world) :
  session (self w) = VNone ->
  truthy (_session_owner (self w)) = false ->
  exists e,
    send session_request v running request kwargs w = (Raise e, w, []) /\
    refused (Send v running request kwargs) (Raise e).
Proof.
  intros Hs Ho. pose proof (open_closed w Hs Ho) as Hopen.
  destruct w as [[s o c u] n]. cbn [self session] in Hs. subst s.
  destruct v; cbn [send refused].
  - eexists. split; [|reflexivity].
    unfold send_basic. unfold bind at 1. rewrite Hopen. reflexivity.
  - unfold send_asyncio, coroutine. unfold bind at 1. rewrite Hopen.
    destruct running as [lid|]; [|eexists; split; reflexivity].
    destruct (kwargs !! "loop") as [[]|] eqn:Hl;
      (eexists; split;
       [unfold bind at 1, _get_running_loop, ret; rewrite ?Hl; reflexivity
       |eexists; split; reflexivity]).
  - eexists. split; [|reflexivity].
    unfold send_trio, coroutine. unfold bind at 1. rewrite Hopen. reflexivity.
Qed.

Lemma run_op_closed (o : op) (w : world) :
  session (self w) = VNone ->
  truthy (_session_owner (self w)) = false ->
  exists r, run_op session_request o w = (r, w, []) /\ refused o r.
Proof.
  intros Hs Ho. destruct o as [| |v running request kwargs]; cbn [run_op refused].
  - exists (Return tt). split; [apply open_closed; assumption|reflexivity].
  - exists (Return tt). split; [apply close_closed; assumption|reflexivity].
  - destruct (send_closed v running request kwargs w Hs Ho) as (e & -> & He).
    exists (Raise e). split; [reflexivity|exact He].
Qed.

(** C9: once [close()] has run on a transport that owned its session,
    nothing the caller does through [open], [close] and [send] gives it a
    session again: every later [open()] and [close()] returns without
    doing anything, every later [send()] raises on the absent session
    (the [AttributeError] of [None.request]; [refused] spells out each
    case) without creating a session or issuing a call, and the state never
    changes. *)
Theorem closed_transport_stays_closed (w : world) (ops : list op) :
  truthy (_session_owner (self w)) = true ->
  outcome (close w) = Return tt ->
  let w1 := final (close w) in
  let x := run_ops session_request ops w1 in
  session (self w1) = VNone /\
  x.1.2 = w1 /\
  x.2 = [] /\
  Forall2 refused ops x.1.1.
Proof.
  intros Ho Hclose w1.
  assert (Hw1 : session (self w1) = VNone /\ truthy (_session_owner (self w1)) = false).
  { subst w1. revert Hclose. destruct w as [[s o c u] n].
    cbn [self _session_owner] in Ho. unfold close, bind, get.
    cbn [self session _session_owner]. rewrite Ho.
    destruct s; cbn; intros H; try discriminate H. split; reflexivity. }
  clearbody w1. destruct Hw1 as [Hs Hown]. split; [exact Hs|].
  induction ops as [|o ops IH]; cbn [run_ops].
  - repeat split. constructor.
  - destruct (run_op_closed o w1 Hs Hown) as (r & -> & Hr).
    destruct (run_ops session_request ops w1) as [[rs w2] ev].
    cbn in IH |- *. destruct IH as (-> & -> & HF).
    repeat split. constructor; assumption.
Qed.

(** C10: a transport constructed without a session and with ownership
    (the default), on which [open()] was never called, raises an
    [AttributeError] on [close()]: it calls [close] on [None], and is left
    as it was. *)
Theorem close_before_open_raises (kwargs : gmap string value)
    (cfg : ConnectionConfiguration) (n : nat) :
  default VNone (kwargs !! "session") = VNone ->
  truthy (default (VBool true) (kwargs !! "session_owner")) = true ->
  let w := {| self := __init__ kwargs cfg; next_session := n |} in
  close w = (Raise (builtin AttributeError "object has no attribute 'close'"), w, []).
Proof.
  intros Hs Ho w. subst w. unfold close, bind, get, __init__, session_close.
  cbn [self session _session_owner]. rewrite Ho, Hs. reflexivity.
Qed.

End LifeCycle.

(** ** The stream download generator *)

Lemma transient_not_StopIteration (e : exn) :
  transient e = true ->
  isinstance e StopIteration = false /\ isinstance e ResponseStopIteration = false.
Proof. destruct e as [c a i]; destruct c; vm_compute; intuition congruence. Qed.

Section GeneratorProperties.
Variable pipeline_run : HttpRequest.t -> bool -> gmap string value -> exn + Response.t.

Lemma next_turn_3 (g : StreamDownloadGenerator.t) (n : Z) :
  downloaded g = VInt n ->
  next_turn pipeline_run 3 g =
    match iter_content_func g with
    | [] => (Raise (Exn StopIteration [] None), g, [ResponseClosed])
    | Chunk [] :: rest =>
        (Raise (Exn StopIteration [] None), with_iter_content_func rest g,
         [ResponseClosed])
    | Chunk b :: rest =>
        (Return (Returned (VBytes b)),
         with_downloaded (VInt (n + block_size g)) (with_iter_content_func rest g), [])
    | Throw e :: rest =>
        let g' := with_iter_content_func rest g in
        if isinstance e StopIteration then
          (Raise (Exn StopIteration [] None), g', [ResponseClosed])
        else if transient e then
          (Raise (builtin TypeError "unsupported operand type(s) for +"), g',
           [Slept 1000])
        else if isinstance e StreamConsumedError then (Raise e, g', [])
        else if isinstance e Exception then (Raise e, g', [Warned e; ResponseClosed])
        else (Raise e, g', [])
    end.
Proof.
  destruct g as [rq rs bs it d]. cbn [downloaded iter_content_func block_size].
  intros ->. destruct it as [|[[|b0 b]|e] rest].
  - reflexivity.
  - reflexivity.
  - reflexivity.
  - unfold transient.
    cbv beta iota zeta delta [next_turn try_except bind next_iter_content get put raise ret
      set_iter_content_func with_iter_content_func iter_content_func request response
      block_size downloaded].
    destruct (isinstance e StopIteration); [reflexivity|].
    destruct (isinstance e ChunkedEncodingError || isinstance e ConnectionError); [reflexivity|].
    destruct (isinstance e StreamConsumedError); [reflexivity|].
    destruct (isinstance e Exception); reflexivity.
Qed.

(** From [retry_total = 3] a turn of the loop never asks for another
    turn: it returns or it raises. *)
Lemma next_turn_3_ends (g : StreamDownloadGenerator.t) (ra : bool) (rt : Z) :
  outcome (next_turn pipeline_run 3 g) <> Return (Continue ra rt).
Proof.
  destruct g as [rq rs bs it d].
  destruct it as [|[[|b0 b]|e] rest].
  - vm_compute. discriminate.
  - vm_compute. discriminate.
  - destruct d; vm_compute; discriminate.
  - cbv beta iota zeta delta [next_turn try_except bind next_iter_content get put raise
      ret set_iter_content_func with_iter_content_func iter_content_func request
      response block_size downloaded outcome fst].
    destruct (isinstance e StopIteration); [cbn; discriminate|].
    destruct (isinstance e ChunkedEncodingError || isinstance e ConnectionError).
    + change (3 - 1 <=? 0) with false. cbv iota.
      destruct d; try (cbn; discriminate).
      cbv beta iota zeta delta [lift add as_int bind ret raise emit run get].
      destruct (pipeline_run _ _ _) as [e'|resp]; [cbn; discriminate|].
      cbv beta iota zeta.
      destruct (Response.status_code resp =? 416); [cbn; discriminate|].
      destruct rest as [|[[|c0 c]|e2] rest']; cbn; discriminate.
    + destruct (isinstance e StreamConsumedError); [cbn; discriminate|].
      destruct (isinstance e Exception); cbn; discriminate.
Qed.

(** One unit of fuel is enough: [__next__] always ends. *)
Lemma __next___fuel (fuel : nat) (g : StreamDownloadGenerator.t) :
  __next__ pipeline_run (S fuel) g = __next__ pipeline_run 1 g /\
  outcome (__next__ pipeline_run 1 g) <> Return None.
Proof.
  pose proof (next_turn_3_ends g) as Hends.
  unfold __next__. cbn [next_loop]. unfold bind.
  destruct (next_turn pipeline_run 3 g) as [[[[v|ra rt]|e] g'] ev]; cbn in *.
  - split; [reflexivity|discriminate].
  - exfalso. exact (Hends ra rt eq_refl).
  - split; [reflexivity|discriminate].
Qed.

Lemma anext_turn_3_ends (loop : value) (g : StreamDownloadGenerator.t)
    (ra : bool) (rt : Z) :
  outcome (anext_turn pipeline_run loop 3 g) <> Return (Continue ra rt).
Proof.
  destruct g as [rq rs bs it d].
  destruct loop; try (vm_compute; discriminate).
  destruct it as [|[[|b0 b]|e] rest].
  - vm_compute. discriminate.
  - vm_compute. discriminate.
  - destruct d; vm_compute; discriminate.
  - cbv beta iota zeta delta [anext_turn try_except bind next_iter_content get put raise
      ret set_iter_content_func with_iter_content_func iter_content_func request
      response block_size downloaded outcome fst run_in_executor_method
      _iterate_response_content].
    destruct (isinstance e StopIteration); cbv beta iota zeta.
    + cbn. discriminate.
    + destruct (isinstance e ResponseStopIteration); [cbn; discriminate|].
      destruct (isinstance e ChunkedEncodingError || isinstance e ConnectionError).
      * change (3 - 1 <=? 0) with false. cbv iota.
        destruct d; try (cbn; discriminate).
        cbv beta iota zeta delta [lift add as_int bind ret raise emit run get].
        destruct (pipeline_run _ _ _) as [e'|resp]; [cbn; discriminate|].
        cbv beta iota zeta.
        destruct (Response.status_code resp =? 416); [cbn; discriminate|].
        destruct rest as [|[[|c0 c]|e2] rest'];
          try destruct (isinstance e2 StopIteration); cbn; discriminate.
      * destruct (isinstance e StreamConsumedError); [cbn; discriminate|].
        destruct (isinstance e Exception); cbn; discriminate.
Qed.

(** One unit of fuel is enough for [__anext__] too. *)
Lemma __anext___fuel (running : option nat) (fuel : nat) (g : StreamDownloadGenerator.t) :
  __anext__ pipeline_run running (S fuel) g = __anext__ pipeline_run running 1 g /\
  outcome (__anext__ pipeline_run running 1 g) <> Return None.
Proof.
  unfold __anext__, coroutine.
  destruct running as [lid|]; [|split; [reflexivity|discriminate]].
  pose proof (anext_turn_3_ends (VLoop lid) g) as Hends.
  cbn [anext_loop _get_running_loop]. unfold bind, ret.
  destruct (anext_turn pipeline_run (VLoop lid) 3 g) as [[[[v|ra rt]|e] g'] ev];
    cbn [outcome fst] in *.
  - split; [reflexivity|discriminate].
  - exfalso. exact (Hends ra rt eq_refl).
  - split; [reflexivity|]. unfold pep479.
    destruct (isinstance e StopIteration); discriminate.
Qed.

Lemma __next___int (fuel : nat) (g : StreamDownloadGenerator.t) (n : Z) :
  downloaded g = VInt n ->
  __next__ pipeline_run (S fuel) g =
    match iter_content_func g with
    | [] => (Raise (Exn StopIteration [] None), g, [ResponseClosed])
    | Chunk [] :: rest =>
        (Raise (Exn StopIteration [] None), with_iter_content_func rest g,
         [ResponseClosed])
    | Chunk b :: rest =>
        (Return (Some (VBytes b)),
         with_downloaded (VInt (n + block_size g)) (with_iter_content_func rest g), [])
    | Throw e :: rest =>
        let g' := with_iter_content_func rest g in
        if isinstance e StopIteration then
          (Raise (Exn StopIteration [] None), g', [ResponseClosed])
        else if transient e then
          (Raise (builtin TypeError "unsupported operand type(s) for +"), g',
           [Slept 1000])
        else if isinstance e StreamConsumedError then (Raise e, g', [])
        else if isinstance e Exception then (Raise e, g', [Warned e; ResponseClosed])
        else (Raise e, g', [])
    end.
Proof.
  intros Hd. unfold __next__. cbn [next_loop]. unfold bind.
  rewrite (next_turn_3 g n Hd).
  destruct (iter_content_func g) as [|[[|b0 b]|e] rest]; try reflexivity.
  cbv zeta.
  destruct (isinstance e StopIteration); [reflexivity|].
  destruct (transient e); [reflexivity|].
  destruct (isinstance e StreamConsumedError); [reflexivity|].
  destruct (isinstance e Exception); reflexivity.
Qed.

(** A pull that fails with a transient error ends the call with the
    [TypeError] of ['bytes=' + self.downloaded]: after the sleep, before
    any request is reissued, and without closing the response. *)
Lemma transient_pull_raises_TypeError (fuel : nat) (g : StreamDownloadGenerator.t)
    (n : Z) (e : exn) (rest : list pull) :
  downloaded g = VInt n ->
  iter_content_func g = Throw e :: rest ->
  transient e = true ->
  __next__ pipeline_run (S fuel) g =
    (Raise (builtin TypeError "unsupported operand type(s) for +"),
     with_iter_content_func rest g, [Slept 1000]).
Proof.
  intros Hd Hit He. rewrite (__next___int fuel g n Hd), Hit. cbv zeta.
  destruct (transient_not_StopIteration e He) as [-> _]. rewrite He. reflexivity.
Qed.

(** The counter stays an integer, and no call of [__next__] reissues a
    request. *)
Lemma __next___never_reissues (fuel : nat) (g : StreamDownloadGenerator.t) (n : Z) :
  downloaded g = VInt n ->
  reissued (events (__next__ pipeline_run (S fuel) g)) = [] /\
  exists n', downloaded (final (__next__ pipeline_run (S fuel) g)) = VInt n'.
Proof.
  intros Hd. rewrite (__next___int fuel g n Hd).
  destruct g as [rq rs bs it d]. cbn in Hd. subst d. cbn [iter_content_func].
  destruct it as [|[[|b0 b]|e] rest]; cbv zeta;
    repeat match goal with
           | |- context [if ?x then _ else _] => destruct x
           end;
    (split; [reflexivity|eexists; reflexivity]).
Qed.

(** With the last unit of the budget ([retry_total = 1]) a transient
    failure leaves the loop: the method returns [None]; nothing is raised
    and nothing is closed. *)
Lemma exhausted_budget_returns_None (fuel : nat) (g : StreamDownloadGenerator.t)
    (e : exn) (rest : list pull) :
  iter_content_func g = Throw e :: rest ->
  transient e = true ->
  next_loop pipeline_run (S fuel) true 1 g =
    (Return (Some VNone), with_iter_content_func rest g, []).
Proof.
  intros Hit He. destruct (transient_not_StopIteration e He) as [Hs _].
  unfold transient in He.
  destruct g as [rq rs bs it d]. cbn in Hit. subst it.
  cbn [next_loop].
  cbv beta iota zeta delta [next_turn try_except bind next_iter_content get put raise ret
      set_iter_content_func with_iter_content_func iter_content_func request response
      block_size downloaded].
  rewrite Hs, He. cbn. destruct fuel; reflexivity.
Qed.

(** What the counter holds after [n] chunks were returned: [n] blocks. *)
Lemma downloaded_counts_blocks (n fuel : nat) (g : StreamDownloadGenerator.t)
    (d : Z) (vs : list value) :
  downloaded g = VInt d ->
  outcome (pull_chunks pipeline_run n (S fuel) g) = Return vs ->
  length vs = n /\
  downloaded (final (pull_chunks pipeline_run n (S fuel) g))
    = VInt (d + block_size g * Z.of_nat n).
Proof.
  revert g d vs. induction n as [|n IH]; intros g d vs Hd.
  - cbn. intros [= <-]. split; [reflexivity|]. rewrite Hd. f_equal. lia.
  - remember (pull_chunks pipeline_run (S n) (S fuel) g) as x eqn:Hx.
    cbn [pull_chunks] in Hx. unfold bind in Hx.
    rewrite (__next___int fuel g d Hd) in Hx.
    destruct (iter_content_func g) as [|[[|b0 b]|e] rest]; cbv zeta in Hx;
      repeat match type of Hx with
             | context [if ?c then _ else _] => destruct c
             end; try (subst x; cbn; discriminate).
    remember (with_downloaded (VInt (d + block_size g)) (with_iter_content_func rest g))
      as g1 eqn:Hg1.
    assert (Hd1 : downloaded g1 = VInt (d + block_size g)) by (subst g1; reflexivity).
    assert (Hb1 : block_size g1 = block_size g) by (subst g1; reflexivity).
    clear Hg1. specialize (IH g1 (d + block_size g)).
    destruct (pull_chunks pipeline_run n (S fuel) g1) as [[[vs'|e'] g2] ev2];
      subst x; cbn; intros H; try discriminate H.
    injection H as <-. destruct (IH vs' Hd1 eq_refl) as [Hlen Hfin].
    cbn in Hfin |- *. split; [congruence|]. rewrite Hfin, Hb1. f_equal. lia.
Qed.

(** C2, as the code has it: on a body on which three pulls in a row break,
    the first call of [__next__] sleeps and then raises the [TypeError] of
    the range header; it does not re-raise the transient error, it does not
    close the raw response, and the second and third failures are never
    reached. *)
Theorem three_broken_pulls_raise_TypeError (fuel : nat) :
  let x := __next__ pipeline_run (S fuel)
             (new_generator (Scenario.respond Scenario.ok_breaking)) in
  outcome x = Raise (builtin TypeError "unsupported operand type(s) for +") /\
  outcome x <> Raise Scenario.broken /\
  events x = [Slept 1000] /\
  closes (events x) = 0%nat /\
  iter_content_func (final x) = [Throw Scenario.broken; Throw Scenario.broken].
Proof.
  intros x. subst x.
  rewrite (transient_pull_raises_TypeError fuel _ 0 Scenario.broken
             [Throw Scenario.broken; Throw Scenario.broken])
    by reflexivity.
  cbn. repeat split. discriminate.
Qed.

(** C3, as the code has it: on a body whose first block arrives and whose
    second pull breaks, the second call of [__next__] raises a
    [TypeError] while it builds the range header; no request is reissued
    through the pipeline, whatever the pipeline would answer, and the
    rest of the content is not delivered. *)
Theorem broken_pull_is_not_resumed (fuel : nat) :
  let x1 := __next__ pipeline_run (S fuel)
              (new_generator (Scenario.respond Scenario.ok_breaking_second)) in
  let x2 := __next__ pipeline_run (S fuel) (final x1) in
  outcome x1 = Return (Some (VBytes (take 4 Scenario.abcdef))) /\
  downloaded (final x1) = VInt 4 /\
  outcome x2 = Raise (builtin TypeError "unsupported operand type(s) for +") /\
  reissued (events x1 ++ events x2) = [] /\
  iter_content_func (final x2) = [].
Proof.
  intros x1 x2. subst x1 x2. vm_compute. repeat split.
Qed.

(** C4, as the code has it: a six-byte body read in blocks of four bytes
    comes out as a chunk of four bytes and a chunk of two; after the
    second chunk the counter holds 8, two blocks, while 6 bytes were
    returned.  The asyncio generator does the same. *)
Theorem downloaded_counts_requested_bytes (fuel : nat) :
  let g := new_generator (Scenario.respond Scenario.ok_six_bytes) in
  let x := pull_chunks pipeline_run 2 (S fuel) g in
  let a1 := __anext__ pipeline_run (Some 0%nat) (S fuel) g in
  let a2 := __anext__ pipeline_run (Some 0%nat) (S fuel) (final a1) in
  outcome x = Return [VBytes (take 4 Scenario.abcdef); VBytes (drop 4 Scenario.abcdef)] /\
  returned_bytes [VBytes (take 4 Scenario.abcdef); VBytes (drop 4 Scenario.abcdef)] = 6 /\
  downloaded (final x) = VInt 8 /\
  outcome a1 = Return (Some (VBytes (take 4 Scenario.abcdef))) /\
  outcome a2 = Return (Some (VBytes (drop 4 Scenario.abcdef))) /\
  downloaded (final a2) = VInt 8.
Proof. intros g x a1 a2. subst g x a1 a2. vm_compute. repeat split. Qed.

(** With budget left and a counter that holds a text, a transient failure
    is followed by the sleep and the ranged re-fetch; answered with a 416,
    the failure is raised again at once. *)
Lemma refetch_416_raises (fuel : nat) (retry_total : Z)
    (g : StreamDownloadGenerator.t) (e : exn) (rest : list pull) (s : string)
    (resp : Response.t) :
  1 < retry_total ->
  iter_content_func g = Throw e :: rest ->
  transient e = true ->
  downloaded g = VStr s ->
  pipeline_run (request g) true {["range" := VStr (("bytes=" +:+ s) +:+ "-")]} = inr resp ->
  Response.status_code resp = 416 ->
  next_loop pipeline_run (S fuel) true retry_total g =
    (Raise e, with_iter_content_func rest g,
     [Slept 1000;
      PipelineRun (request g) true {["range" := VStr (("bytes=" +:+ s) +:+ "-")]}]).
Proof.
  intros Hrt Hit He Hd Hrun H416.
  destruct (transient_not_StopIteration e He) as [Hs _]. unfold transient in He.
  destruct g as [rq rs bs it d]. cbn in Hit, Hd, Hrun |- *. subst it d.
  cbv beta iota zeta delta [next_turn try_except bind next_iter_content get put raise ret
      set_iter_content_func with_iter_content_func iter_content_func request response
      block_size downloaded].
  rewrite Hs, He.
  destruct (Z.leb_spec (retry_total - 1) 0) as [Hle|_]; [lia|].
  cbv beta iota zeta delta [emit lift add as_int run bind ret raise get].
  rewrite Hrun. cbv beta iota zeta. rewrite H416. reflexivity.
Qed.

Ltac no_refetch Hin :=
  exfalso; revert Hin; cbn;
  repeat (let H := fresh in intros H; apply elem_of_cons in H as [H|H];
          [discriminate H|revert H]);
  apply not_elem_of_nil.

(** A ranged re-fetch is issued in one situation only: a pull failed with
    a transient error, budget is left, and the counter holds a text (with
    the integer the constructor sets, the range header cannot be written,
    see C3). *)
Lemma refetch_issued (fuel : nat) (retry_total : Z) (g : StreamDownloadGenerator.t)
    (rq : HttpRequest.t) (st : bool) (h : gmap string value) :
  PipelineRun rq st h ∈ events (next_loop pipeline_run (S fuel) true retry_total g) ->
  exists e rest s,
    1 < retry_total /\
    iter_content_func g = Throw e :: rest /\
    transient e = true /\
    downloaded g = VStr s /\
    rq = request g /\ st = true /\
    h = {["range" := VStr (("bytes=" +:+ s) +:+ "-")]}.
Proof.
  intros Hin. destruct g as [rq0 rs bs it d].
  cbn [next_loop] in Hin.
  cbv beta iota zeta delta [next_turn try_except bind next_iter_content get put raise ret
      set_iter_content_func with_iter_content_func iter_content_func request response
      block_size downloaded] in Hin.
  destruct it as [|[[|b0 b]|e] rest].
  - no_refetch Hin.
  - no_refetch Hin.
  - destruct d; no_refetch Hin.
  - destruct (isinstance e StopIteration); [no_refetch Hin|].
    fold (transient e) in Hin.
    destruct (transient e) eqn:He.
    + destruct (Z.leb_spec (retry_total - 1) 0) as [Hle|Hgt].
      * destruct fuel; no_refetch Hin.
      * cbv beta iota zeta delta [emit lift add as_int run bind ret raise get] in Hin.
        destruct d; try (no_refetch Hin).
        exists e, rest, s. split; [lia|]. split; [reflexivity|].
        split; [exact He|]. split; [reflexivity|].
        cbv beta iota zeta in Hin.
        assert (Hev : forall ev,
                  PipelineRun rq st h
                  ∈ Slept retry_interval
                    :: PipelineRun rq0 true {["range" := VStr (("bytes=" +:+ s) +:+ "-")]}
                    :: ev ->
                  ev = [] ->
                  rq = rq0 /\ st = true /\
                  h = {["range" := VStr (("bytes=" +:+ s) +:+ "-")]}).
        { intros ev H ->.
          apply elem_of_cons in H as [H|H]; [discriminate H|].
          apply elem_of_cons in H as [H|H]; [injection H as -> -> ->; auto|].
          apply elem_of_nil in H. contradiction. }
        destruct (pipeline_run _ _ _) as [e'|resp];
          [exact (Hev _ Hin eq_refl)|].
        cbv beta iota zeta in Hin.
        destruct (Response.status_code resp =? 416);
          [exact (Hev _ Hin eq_refl)|].
        destruct rest as [|[[|c0 c]|e2] rest']; exact (Hev _ Hin eq_refl).
    + destruct (isinstance e StreamConsumedError); [no_refetch Hin|].
      destruct (isinstance e Exception); no_refetch Hin.
Qed.

(** C5: whenever a call of [__next__] (the loop from [retry_total = 3], or
    from any other budget) issues its ranged re-fetch and the pipeline
    answers it with a 416, the call raises the pending transient error, the
    one the failed pull raised, at once: after the sleep and that one
    re-fetch nothing more is done, no further pull, no further retry, no
    close. *)
Theorem range_not_satisfiable_is_fatal (fuel : nat) (retry_total : Z)
    (g : StreamDownloadGenerator.t) (rq : HttpRequest.t) (st : bool)
    (h : gmap string value) (resp : Response.t) :
  PipelineRun rq st h ∈ events (next_loop pipeline_run (S fuel) true retry_total g) ->
  pipeline_run rq st h = inr resp ->
  Response.status_code resp = 416 ->
  exists e rest,
    iter_content_func g = Throw e :: rest /\
    transient e = true /\
    next_loop pipeline_run (S fuel) true retry_total g =
      (Raise e, with_iter_content_func rest g, [Slept 1000; PipelineRun rq st h]).
Proof.
  intros Hin Hrun H416.
  destruct (refetch_issued fuel retry_total g rq st h Hin)
    as (e & rest & s & Hrt & Hit & He & Hd & -> & -> & ->).
  exists e, rest. split; [exact Hit|]. split; [exact He|].
  exact (refetch_416_raises fuel retry_total g e rest s resp Hrt Hit He Hd Hrun H416).
Qed.

End GeneratorProperties.

(** ** The theorems at work *)

Lemma send_classifies_failure_witness :
  outcome (send Scenario.aborting_session Basic None Scenario.get_blob ∅ Scenario.fresh)
    = Raise (azure_error ServiceResponseError Scenario.aborted) /\
  outcome (send Scenario.aborting_session Asyncio (Some 0%nat) Scenario.get_blob ∅
             Scenario.fresh)
    = Raise (azure_error ServiceResponseError Scenario.aborted) /\
  outcome (send Scenario.aborting_session Trio None Scenario.get_blob ∅ Scenario.opened)
    = Raise (azure_error ServiceResponseError Scenario.aborted).
Proof.
  split; [|split].
  - refine (proj1 (proj2 (proj2 (proj2
              (send_classifies_failure Scenario.aborting_session Basic None
                 Scenario.get_blob ∅ Scenario.fresh 0%nat Scenario.aborted _ _)))) _ _);
      try reflexivity.
    split; [reflexivity|]. split; [first [exact I|reflexivity]|]. intros k _. apply lookup_empty.
  - refine (proj1 (proj2 (proj2 (proj2
              (send_classifies_failure Scenario.aborting_session Asyncio (Some 0%nat)
                 Scenario.get_blob ∅ Scenario.fresh 0%nat Scenario.aborted _ _)))) _ _);
      try reflexivity.
    split; [reflexivity|]. split; [exists 0%nat; split; reflexivity|].
    intros k _. apply lookup_empty.
  - refine (proj1 (proj2 (proj2 (proj2
              (send_classifies_failure Scenario.aborting_session Trio None
                 Scenario.get_blob ∅ Scenario.opened 0%nat Scenario.aborted _ _)))) _ _);
      try reflexivity.
    split; [reflexivity|]. split; [first [exact I|reflexivity]|]. intros k _. apply lookup_empty.
Defined.

Lemma range_not_satisfiable_is_fatal_witness :
  exists e rest,
    iter_content_func Cases.resumable = Throw e :: rest /\
    transient e = true /\
    __next__ Scenario.pipeline_416 1 Cases.resumable =
      (Raise e, with_iter_content_func rest Cases.resumable,
       [Slept 1000; PipelineRun Scenario.get_blob true Cases.from_offset_0]).
Proof.
  refine (range_not_satisfiable_is_fatal Scenario.pipeline_416 0 3 Cases.resumable
            Scenario.get_blob true Cases.from_offset_0
            (new_response RequestsTransportResponse Scenario.get_blob
               Scenario.range_not_satisfiable 4) _ _ _).
  - apply elem_of_cons. right. apply elem_of_cons. left. reflexivity.
  - reflexivity.
  - reflexivity.
Defined.

Lemma send_never_follows_redirects_witness :
  (exists c resp,
     http_calls (events (send Scenario.redirecting_session Basic None Scenario.get_blob ∅
                           Scenario.fresh)) = [(0%nat, c)] /\
     Call.keywords c !! "allow_redirects" = Some (VBool false) /\
     outcome (send Scenario.redirecting_session Basic None Scenario.get_blob ∅
                Scenario.fresh) = Return resp /\
     Response.internal_response resp = Scenario.found /\
     Response.status_code resp = 302 /\
     Response.headers resp = {["location" := "http://example.org/elsewhere"]}) /\
  (exists c resp,
     http_calls (events (send Scenario.redirecting_session Asyncio (Some 0%nat)
                           Scenario.get_blob ∅ Scenario.fresh)) = [(0%nat, c)] /\
     Call.keywords c !! "allow_redirects" = Some (VBool false) /\
     outcome (send Scenario.redirecting_session Asyncio (Some 0%nat) Scenario.get_blob ∅
                Scenario.fresh) = Return resp /\
     Response.internal_response resp = Scenario.found /\
     Response.status_code resp = 302 /\
     Response.headers resp = {["location" := "http://example.org/elsewhere"]}) /\
  (exists c resp,
     http_calls (events (send Scenario.redirecting_session Trio None Scenario.get_blob ∅
                           Scenario.fresh)) = [(0%nat, c)] /\
     Call.keywords c !! "allow_redirects" = Some (VBool false) /\
     outcome (send Scenario.redirecting_session Trio None Scenario.get_blob ∅
                Scenario.fresh) = Return resp /\
     Response.internal_response resp = Scenario.found /\
     Response.status_code resp = 302 /\
     Response.headers resp = {["location" := "http://example.org/elsewhere"]}).
Proof.
  split; [|split].
  - refine (proj2 (proj2
              (send_never_follows_redirects Scenario.redirecting_session Basic None
                 Scenario.get_blob ∅ Scenario.fresh))
              0%nat Scenario.found _ _).
    + split; [reflexivity|]. split; [first [exact I|reflexivity]|]. intros k _. apply lookup_empty.
    + intros c _. reflexivity.
  - refine (proj2 (proj2
              (send_never_follows_redirects Scenario.redirecting_session Asyncio (Some 0%nat)
                 Scenario.get_blob ∅ Scenario.fresh))
              0%nat Scenario.found _ _).
    + split; [reflexivity|]. split; [exists 0%nat; split; reflexivity|].
      intros k _. apply lookup_empty.
    + intros c _. reflexivity.
  - refine (proj2 (proj2
              (send_never_follows_redirects Scenario.redirecting_session Trio None
                 Scenario.get_blob ∅ Scenario.fresh))
              0%nat Scenario.found _ _).
    + split; [reflexivity|]. split; [first [exact I|reflexivity]|]. intros k _. apply lookup_empty.
    + intros c _. reflexivity.
Defined.

Lemma variants_classify_alike_witness :
  (exists e,
     outcome (send Scenario.aborting_session Basic None Scenario.get_blob ∅ Scenario.fresh)
       = Raise e /\
     outcome (send Scenario.aborting_session Asyncio (Some 0%nat) Scenario.get_blob ∅
                Scenario.opened)
       = Raise e /\
     (isinstance Scenario.aborted NewConnectionError = true \/
      isinstance Scenario.aborted RequestException = true ->
      (cls_of e = ServiceRequestError \/ cls_of e = ServiceResponseError) /\
      inner_exception_of e = Some Scenario.aborted)) /\
  (exists e,
     outcome (send Scenario.aborting_session Basic None Scenario.get_blob ∅ Scenario.fresh)
       = Raise e /\
     outcome (send Scenario.aborting_session Trio None Scenario.get_blob ∅ Scenario.fresh)
       = Raise e /\
     (isinstance Scenario.aborted NewConnectionError = true \/
      isinstance Scenario.aborted RequestException = true ->
      (cls_of e = ServiceRequestError \/ cls_of e = ServiceResponseError) /\
      inner_exception_of e = Some Scenario.aborted)).
Proof.
  split.
  - refine (proj2 (proj2
              (variants_classify_alike Scenario.aborting_session Basic Asyncio None
                 (Some 0%nat) Scenario.get_blob Scenario.get_blob ∅ ∅ Scenario.fresh
                 Scenario.opened 0%nat 0%nat Scenario.aborted _ _ _ _ _)));
      try reflexivity.
    + split; [reflexivity|]. split; [first [exact I|reflexivity]|]. intros k _. apply lookup_empty.
    + split; [reflexivity|]. split; [exists 0%nat; split; reflexivity|].
      intros k _. apply lookup_empty.
  - refine (proj2 (proj2
              (variants_classify_alike Scenario.aborting_session Basic Trio None None
                 Scenario.get_blob Scenario.get_blob ∅ ∅ Scenario.fresh Scenario.fresh
                 0%nat 0%nat Scenario.aborted _ _ _ _ _)));
      try reflexivity.
    + split; [reflexivity|]. split; [first [exact I|reflexivity]|]. intros k _. apply lookup_empty.
    + split; [reflexivity|]. split; [first [exact I|reflexivity]|]. intros k _. apply lookup_empty.
Defined.

Lemma close_twice_is_safe_witness :
  sessions_closed (events ((close;;; close) Scenario.opened)) = [0%nat].
Proof.
  refine (proj2 (proj2 (proj2 (proj2 (proj2 (proj2 (proj2
            (close_twice_is_safe Scenario.opened 0%nat _ _))))))));
    reflexivity.
Defined.

Lemma closed_transport_stays_closed_witness :
  Forall2 refused
    [Open; Send Basic None Scenario.get_blob ∅; Close; Send Trio None Scenario.get_blob ∅]
    (run_ops Scenario.redirecting_session
       [Open; Send Basic None Scenario.get_blob ∅; Close; Send Trio None Scenario.get_blob ∅]
       (final (close Scenario.opened))).1.1.
Proof.
  refine (proj2 (proj2 (proj2
            (closed_transport_stays_closed Scenario.redirecting_session Scenario.opened
               [Open; Send Basic None Scenario.get_blob ∅; Close;
                Send Trio None Scenario.get_blob ∅] _ _))));
    reflexivity.
Defined.

Lemma close_before_open_raises_witness :
  close Scenario.fresh
    = (Raise (builtin AttributeError "object has no attribute 'close'"), Scenario.fresh, []).
Proof.
  refine (close_before_open_raises ∅ Scenario.config 0%nat _ _); reflexivity.
Defined.

(** * More properties *)

(** ** The call of [send] *)

Section SendOutline.
Variable session_request : nat -> Call.t -> exn + RawResponse.t.

Lemma unclassified (err : exn) :
  isinstance err NewConnectionError = false ->
  isinstance err RequestException = false ->
  except_basic err = None.
Proof.
  intros H1 H2. unfold except_basic. rewrite H1.
  assert (isinstance err ReadTimeout = false /\ isinstance err ConnectionError = false)
    as [-> ->].
  { revert H2. destruct err as [c a i]; destruct c; vm_compute; intuition congruence. }
  rewrite H2. reflexivity.
Qed.

Lemma send_call_shape (v : variant) (running : option nat) (request : HttpRequest.t)
    (kwargs : gmap string value) (w : world) (sid : nat) (c : Call.t) :
  http_calls (events (send session_request v running request kwargs w)) = [(sid, c)] ->
  let cfg := connection_config (self w) in
  c = {| Call.positional := [VStr (HttpRequest.method request);
                             VStr (HttpRequest.url request)];
         Call.keywords :=
           list_to_map
             [("headers", VDict (HttpRequest.headers request));
              ("data", HttpRequest.data request);
              ("files", HttpRequest.files request);
              ("verify", default (verify cfg) (kwargs !! "connection_verify"));
              ("timeout", default (timeout cfg) (kwargs !! "connection_timeout"));
              ("cert", default (cert cfg) (kwargs !! "connection_cert"));
              ("allow_redirects", VBool false)]
           ∪ delete "connection_cert"
               (delete "connection_timeout" (delete "connection_verify" kwargs)) |}.
Proof.
  intros Hcalls cfg. subst cfg.
  destruct (open_spec w) as (w1 & ev0 & Hopen & Hnone & _ & _).
  destruct (send_events session_request v running request kwargs w)
    as [Hev|(sid' & _ & Hev)];
    rewrite Hev, ?http_calls_app, Hopen in Hcalls; cbn [events snd] in Hcalls;
    rewrite Hnone in Hcalls.
  - discriminate.
  - cbn in Hcalls. injection Hcalls as <- <-. reflexivity.
Qed.

(** X1: the call [send] issues carries the request and the options as the
    caller gave them: method and URL are the positional arguments; headers,
    data and files are the request's; [verify], [timeout] and [cert] are the
    [connection_*] option of the call when there is one and the configured
    value otherwise; the three [connection_*] options themselves are not
    handed on; every other option reaches [session.request] unchanged. *)
Theorem send_hands_options_on (v : variant) (running : option nat)
    (request : HttpRequest.t) (kwargs : gmap string value) (w : world)
    (sid : nat) (c : Call.t) :
  http_calls (events (send session_request v running request kwargs w)) = [(sid, c)] ->
  let cfg := connection_config (self w) in
  Call.positional c = [VStr (HttpRequest.method request); VStr (HttpRequest.url request)] /\
  Call.keywords c !! "headers" = Some (VDict (HttpRequest.headers request)) /\
  Call.keywords c !! "data" = Some (HttpRequest.data request) /\
  Call.keywords c !! "files" = Some (HttpRequest.files request) /\
  Call.keywords c !! "verify" = Some (default (verify cfg) (kwargs !! "connection_verify")) /\
  Call.keywords c !! "timeout" = Some (default (timeout cfg) (kwargs !! "connection_timeout")) /\
  Call.keywords c !! "cert" = Some (default (cert cfg) (kwargs !! "connection_cert")) /\
  (forall k, k ∈ connection_options -> Call.keywords c !! k = None) /\
  (forall k, k ∉ explicit_keywords -> k ∉ connection_options ->
     Call.keywords c !! k = kwargs !! k).
Proof.
  intros Hcalls cfg. subst cfg.
  rewrite (send_call_shape v running request kwargs w sid c Hcalls).
  cbn [Call.positional Call.keywords].
  split; [reflexivity|].
  do 6 (split; [apply lookup_union_Some_l; reflexivity|]).
  split.
  - intros k Hk. apply lookup_union_None. split.
    + unfold connection_options in Hk.
      repeat (apply elem_of_cons in Hk as [->|Hk]); try reflexivity.
      inversion Hk.
    + unfold connection_options in Hk.
      repeat (apply elem_of_cons in Hk as [->|Hk]).
      * rewrite !lookup_delete_ne by discriminate. apply lookup_delete_eq.
      * rewrite lookup_delete_ne by discriminate. apply lookup_delete_eq.
      * apply lookup_delete_eq.
      * inversion Hk.
  - intros k Hk Hc. unfold explicit_keywords in Hk. unfold connection_options in Hc.
    rewrite !not_elem_of_cons in Hk. rewrite !not_elem_of_cons in Hc.
    destruct Hk as (? & ? & ? & ? & ? & ? & ? & _). destruct Hc as (? & ? & ? & _).
    rewrite lookup_union_r.
    + rewrite !lookup_delete_ne by congruence. reflexivity.
    + cbn [list_to_map foldr uncurry fst snd curry].
      rewrite !lookup_insert_ne by congruence. apply lookup_empty.
Qed.
End SendOutline.

(** ** More on the transports *)

Section MoreSend.
Variable session_request : nat -> Call.t -> exn + RawResponse.t.

(** X2: an option that names one of the keywords [send] writes out itself
    ([allow_redirects], [headers], [verify], ...) does not override it: with
    a session and a loop at hand, [send] raises the [TypeError] of the
    doubled keyword and issues no call. *)
Theorem send_rejects_doubled_keyword (v : variant) (running : option nat)
    (request : HttpRequest.t) (kwargs : gmap string value) (w : world)
    (sid : nat) (k : string) :
  k ∈ explicit_keywords ->
  is_Some (kwargs !! k) ->
  loop_available v running kwargs ->
  session (self (final (open w))) = VSession sid ->
  let x := send session_request v running request kwargs w in
  outcome x = Raise (builtin TypeError "got multiple values for keyword argument") /\
  http_calls (events x) = [].
Proof.
  intros Hk [val Hval] Hloop Hs x. subst x.
  destruct (send_outline session_request v running request kwargs w) as [_ Hcases].
  destruct (open_spec w) as (w1 & ev0 & Hopen & Hnone & _ & _).
  rewrite Hopen in Hcases, Hs. cbn [events final fst snd] in Hcases, Hs.
  destruct Hcases as [(Hno & _)|(_ & Hcase)]; [contradiction|].
  rewrite Hs in Hcase.
  match type of Hcase with context [keyword_arguments ?a ?b] =>
    assert (Hkw : keyword_arguments a b
                  = inl (builtin TypeError "got multiple values for keyword argument")) end.
  { unfold keyword_arguments, explicit_keywords in *.
    repeat (apply elem_of_cons in Hk as [->|Hk]); [..|inversion Hk];
      cbn [existsb fst]; rewrite !lookup_delete_ne by discriminate; rewrite Hval;
      cbn; rewrite ?orb_true_r; reflexivity. }
  rewrite Hkw in Hcase. destruct Hcase as [Hev Hout].
  split; [exact Hout|]. rewrite Hev. exact Hnone.
Qed.

(** X3: an exception of the call that is neither a [NewConnectionError] nor
    a [RequestException] (and not a [StopIteration], which cannot cross an
    [await]) is not wrapped: a [send] that is [ready] (given a session
    and no doubled keyword, the asyncio [send] on its own loop, the trio
    [send] under the default limiter) issues its call and raises the
    exception as it is. *)
Theorem send_lets_other_errors_through (v : variant) (running : option nat)
    (request : HttpRequest.t) (kwargs : gmap string value) (w : world)
    (sid : nat) (err : exn) :
  ready v running kwargs w sid ->
  (forall c, http_calls (events (send session_request v running request kwargs w))
               = [(sid, c)] ->
             session_request sid c = inl err) ->
  isinstance err NewConnectionError = false ->
  isinstance err RequestException = false ->
  isinstance err StopIteration = false ->
  (exists c, http_calls (events (send session_request v running request kwargs w))
             = [(sid, c)]) /\
  outcome (send session_request v running request kwargs w) = Raise err.
Proof.
  intros Hready Herr H1 H2 Hs.
  destruct (send_ready session_request v running request kwargs w sid Hready)
    as (c & Hcalls & _ & Hout).
  rewrite (Herr c Hcalls) in Hout.
  split; [exists c; exact Hcalls|].
  rewrite (proj2 Hout Hs), (unclassified err H1 H2). reflexivity.
Qed.

Lemma sessions_created_app (a b : list event) :
  sessions_created (a ++ b) = sessions_created a ++ sessions_created b.
Proof. unfold sessions_created. apply omap_app. Qed.

Lemma sessions_closed_app (a b : list event) :
  sessions_closed (a ++ b) = sessions_closed a ++ sessions_closed b.
Proof. unfold sessions_closed. apply omap_app. Qed.

Lemma open_creates (w : world) :
  truthy (session (self w)) = false ->
  truthy (_session_owner (self w)) = true ->
  open w =
    (Return tt,
     {| self := {| session := VSession (next_session w);
                   _session_owner := _session_owner (self w);
                   connection_config := connection_config (self w);
                   _use_env_settings := _use_env_settings (self w) |};
        next_session := S (next_session w) |},
     [SessionCreated (next_session w);
      TrustEnvSet (next_session w) (_use_env_settings (self w));
      AdapterMounted (next_session w) "http://";
      AdapterMounted (next_session w) "https://"]).
Proof.
  destruct w as [[s o c u] n]. cbn [self session _session_owner next_session].
  intros Hs Ho. unfold open, bind, get. cbn [self session _session_owner].
  rewrite Hs, Ho. reflexivity.
Qed.

Lemma open_settled (w : world) :
  negb (truthy (session (self w))) && truthy (_session_owner (self w)) = false ->
  open w = (Return tt, w, []).
Proof.
  destruct w as [[s o c u] n]. cbn [self session _session_owner].
  intros H. unfold open, bind, get. cbn [self session _session_owner].
  rewrite H. reflexivity.
Qed.

(** X4: [open()] is idempotent: a second [open()] right after the first
    changes nothing and creates nothing, whatever the transport. *)
Theorem open_twice_is_open (w : world) :
  (open;;; open) w = open w.
Proof.
  unfold bind at 1.
  destruct (negb (truthy (session (self w))) && truthy (_session_owner (self w))) eqn:E.
  - apply andb_true_iff in E as [Hs Ho]. apply negb_true_iff in Hs.
    rewrite (open_creates w Hs Ho). rewrite open_settled by reflexivity.
    reflexivity.
  - rewrite (open_settled w E). rewrite (open_settled w E). reflexivity.
Qed.

(** X5: on a transport built without a session and with the default
    ownership, [open()] creates one session, sets its [trust_env] from the
    [use_env_settings] option ([True] when the option is absent), mounts the
    adapter for [http://] and for [https://], in that order, and keeps the
    session. *)
Theorem open_configures_new_session (kwargs : gmap string value)
    (cfg : ConnectionConfiguration) (n : nat) :
  default VNone (kwargs !! "session") = VNone ->
  truthy (default (VBool true) (kwargs !! "session_owner")) = true ->
  let x := open {| self := __init__ kwargs cfg; next_session := n |} in
  outcome x = Return tt /\
  session (self (final x)) = VSession n /\
  events x = [SessionCreated n;
              TrustEnvSet n (default (VBool true) (kwargs !! "use_env_settings"));
              AdapterMounted n "http://"; AdapterMounted n "https://"].
Proof.
  intros Hs Ho x. subst x.
  rewrite open_creates.
  - repeat split.
  - cbn. rewrite Hs. reflexivity.
  - exact Ho.
Qed.

Lemma send_frame (v : variant) (running : option nat) (request : HttpRequest.t)
    (kwargs : gmap string value) (w : world) :
  let x := send session_request v running request kwargs w in
  final x = final (open w) /\
  (events x = events (open w) \/
   exists sid c, session (self (final (open w))) = VSession sid /\
                 events x = events (open w) ++ [HttpCall sid c]).
Proof.
  intros x. subst x.
  split; [exact (proj1 (send_outline session_request v running request kwargs w))|].
  destruct (send_events session_request v running request kwargs w)
    as [Hev|(sid & Hs & Hev)]; [left; exact Hev|].
  right. eexists _, _. split; [exact Hs|exact Hev].
Qed.

Lemma close_cases (w : world) :
  (exists e, close w = (Raise e, w, [])) \/
  close w = (Return tt, w, []) \/
  (exists sid w',
     close w = (Return tt, w', [SessionClosed sid]) /\
     session (self w) = VSession sid /\
     truthy (_session_owner (self w)) = true /\
     session (self w') = VNone /\
     _session_owner (self w') = VBool false).
Proof.
  destruct w as [[s o c u] n]. unfold close, bind, get.
  cbn [self session _session_owner].
  destruct (truthy o) eqn:Ho; [|right; left; reflexivity].
  destruct s; try (left; eexists; reflexivity).
  right. right. eexists _, _. split; [reflexivity|]. cbn. auto.
Qed.

(** What one method call spends: a transport that may still create a
    session can do so once, and one that owns its session can release it
    once. *)
Lemma run_op_budget (o : op) (w : world) :
  let x := run_op session_request o w in
  let may_create w :=
    Nat.b2n (negb (truthy (session (self w))) && truthy (_session_owner (self w))) in
  let may_close w := Nat.b2n (truthy (_session_owner (self w))) in
  (length (sessions_created x.2) + may_create x.1.2 <= may_create w)%nat /\
  (length (sessions_closed x.2) + may_close x.1.2 <= may_close w)%nat.
Proof.
  intros x may_create may_close. subst x may_create may_close.
  assert (Hopen :
    (length (sessions_created (events (open w)))
     + Nat.b2n (negb (truthy (session (self (final (open w)))))
                && truthy (_session_owner (self (final (open w)))))
     <= Nat.b2n (negb (truthy (session (self w))) && truthy (_session_owner (self w))))%nat /\
    (length (sessions_closed (events (open w)))
     + Nat.b2n (truthy (_session_owner (self (final (open w)))))
     <= Nat.b2n (truthy (_session_owner (self w))))%nat).
  { destruct (negb (truthy (session (self w))) && truthy (_session_owner (self w))) eqn:E.
    - pose proof E as E'. apply andb_true_iff in E' as [Hs Ho]. apply negb_true_iff in Hs.
      rewrite (open_creates w Hs Ho). cbn -[Nat.b2n]. rewrite Ho. cbn. lia.
    - rewrite (open_settled w E). cbn -[truthy negb andb Nat.b2n].
      rewrite E. lia. }
  destruct o as [| |v running request kwargs]; cbn [run_op].
  - exact Hopen.
  - destruct (close_cases w) as [[e ->]|[->|(sid & w' & -> & Hs & Ho & Hs' & Ho')]];
      cbn -[truthy negb andb Nat.b2n]; try lia.
    rewrite Hs, Ho, Hs', Ho'. cbn. lia.
  - destruct (send_frame v running request kwargs w) as [Hfin Hev].
    destruct (send session_request v running request kwargs w) as [[r w'] ev].
    cbn [events final fst snd] in *. subst w'.
    destruct Hev as [->|(sid & c & _ & ->)].
    + exact Hopen.
    + rewrite sessions_created_app, sessions_closed_app. cbn.
      rewrite !app_nil_r. exact Hopen.
Qed.

(** X6: in its whole life a transport creates at most one session and
    releases at most one: whatever sequence of [open], [close] and [send]
    calls the caller makes, on any of the three transports and whatever the
    calls raise. *)
Theorem one_session_per_transport (ops : list op) (w : world) :
  let x := run_ops session_request ops w in
  (length (sessions_created x.2) <= 1)%nat /\
  (length (sessions_closed x.2) <= 1)%nat.
Proof.
  intros x. subst x.
  assert (H : forall ops w,
    (length (sessions_created (run_ops session_request ops w).2)
     <= Nat.b2n (negb (truthy (session (self w))) && truthy (_session_owner (self w))))%nat /\
    (length (sessions_closed (run_ops session_request ops w).2)
     <= Nat.b2n (truthy (_session_owner (self w))))%nat).
  { clear. induction ops as [|o ops IH]; intros w; cbn [run_ops].
    - cbn. lia.
    - pose proof (run_op_budget o w) as Hb. cbv zeta in Hb.
      destruct (run_op session_request o w) as [[r w1] ev1].
      specialize (IH w1).
      destruct (run_ops session_request ops w1) as [[rs w2] ev2].
      cbn [fst snd] in *.
      rewrite sessions_created_app, sessions_closed_app, !length_app.
      lia. }
  destruct (H ops w) as [H1 H2]. split.
  - etransitivity; [exact H1|].
    match goal with |- (Nat.b2n ?b <= 1)%nat => destruct b; cbn; lia end.
  - etransitivity; [exact H2|].
    match goal with |- (Nat.b2n ?b <= 1)%nat => destruct b; cbn; lia end.
Qed.

(** X7: a session the caller supplied with [session_owner=False] stays the
    caller's: whatever sequence of [open], [close] and [send] calls is made,
    the transport keeps that session, never closes it, never creates
    another, and every event is an HTTP call on that session. *)
Theorem unowned_session_is_left_alone (ops : list op) (w : world) (sid : nat) :
  session (self w) = VSession sid ->
  truthy (_session_owner (self w)) = false ->
  let x := run_ops session_request ops w in
  x.1.2 = w /\
  sessions_closed x.2 = [] /\
  sessions_created x.2 = [] /\
  Forall (fun e => exists c, e = HttpCall sid c) x.2.
Proof.
  intros Hs Ho x. subst x.
  assert (Hopen : open w = (Return tt, w, [])).
  { apply open_settled. rewrite Hs. reflexivity. }
  assert (Hstep : forall o, exists r ev,
            run_op session_request o w = (r, w, ev) /\
            Forall (fun e => exists c, e = HttpCall sid c) ev).
  { intros [| |v running request kwargs]; cbn [run_op].
    - eexists _, _. split; [exact Hopen|constructor].
    - eexists _, _. split; [apply close_closed; exact Ho|constructor].
    - destruct (send_frame v running request kwargs w) as [Hfin Hev].
      rewrite Hopen in Hfin, Hev. cbn [events final fst snd] in Hfin, Hev.
      destruct (send session_request v running request kwargs w) as [[r w'] ev].
      cbn [events final fst snd] in *. subst w'.
      eexists _, _. split; [reflexivity|].
      destruct Hev as [->|(sid' & c & Hsid & ->)]; [constructor|].
      rewrite Hs in Hsid. injection Hsid as <-.
      repeat constructor. eexists. reflexivity. }
  induction ops as [|o ops IH]; cbn [run_ops].
  - repeat split. constructor.
  - destruct (Hstep o) as (r & ev & -> & Hev).
    destruct (run_ops session_request ops w) as [[rs w2] ev2].
    cbn [fst snd] in *. destruct IH as (-> & Hcl & Hcr & Hall).
    rewrite sessions_closed_app, sessions_created_app, Hcl, Hcr, !app_nil_r.
    assert (Hboth : sessions_closed ev = [] /\ sessions_created ev = []).
    { clear -Hev. induction Hev as [|e ev (c & ->) _ IH]; [split; reflexivity|].
      destruct IH as [IH1 IH2]. cbn. split; assumption. }
    destruct Hboth as [-> ->].
    repeat split. apply Forall_app. split; assumption.
Qed.


(** X9: the asyncio [send] looks for the running loop only after it has
    opened the session: called with no loop running on a transport without
    a session, it raises [RuntimeError] and issues no call, and the session
    it created stays with the transport. *)
Theorem send_asyncio_without_loop (request : HttpRequest.t)
    (kwargs : gmap string value) (w : world) :
  truthy (session (self w)) = false ->
  truthy (_session_owner (self w)) = true ->
  let x := send session_request Asyncio None request kwargs w in
  outcome x = Raise (builtin RuntimeError "No running event loop") /\
  http_calls (events x) = [] /\
  sessions_created (events x) = [next_session w] /\
  session (self (final x)) = VSession (next_session w).
Proof.
  intros Hs Ho x.
  assert (Hx : x = send session_request Asyncio None request kwargs w) by reflexivity.
  clearbody x. cbn [send] in Hx. unfold send_asyncio, coroutine in Hx.
  unfold bind at 1 in Hx. rewrite (open_creates w Hs Ho) in Hx.
  cbn in Hx. subst x. cbn. repeat split.
Qed.



End MoreSend.

(** ** More on the generators *)

Lemma bind_ret {S Ev A B} (a : A) (k : A -> M S Ev B) (s : S) :
  bind (ret a) k s = k a s.
Proof. unfold bind, ret. destruct (k a s) as [[r s'] ev]. reflexivity. Qed.

Lemma bind_pointwise {S Ev A B} (m : M S Ev A) (k1 k2 : A -> M S Ev B) (s : S) :
  (forall a s', k1 a s' = k2 a s') -> bind m k1 s = bind m k2 s.
Proof.
  intros H. unfold bind. destruct (m s) as [[[a|e] s1] ev1]; [|reflexivity].
  rewrite H. reflexivity.
Qed.

Lemma try_except_pointwise {S Ev A} (b1 b2 : M S Ev A) (h1 h2 : exn -> M S Ev A) (s : S) :
  b1 s = b2 s -> (forall e s', h1 e s' = h2 e s') ->
  try_except b1 h1 s = try_except b2 h2 s.
Proof.
  intros Hb Hh. unfold try_except. rewrite Hb.
  destruct (b2 s) as [[[a|e] s1] ev1]; [reflexivity|]. rewrite Hh. reflexivity.
Qed.

Section GeneratorsAgree.
Variable pipeline_run : HttpRequest.t -> bool -> gmap string value -> exn + Response.t.

Lemma anext_turn_trio (lid : nat) (retry_total : Z) (g : StreamDownloadGenerator.t) :
  anext_turn pipeline_run (VLoop lid) retry_total g
  = trio_anext_turn pipeline_run retry_total g.
Proof.
  unfold anext_turn, trio_anext_turn.
  apply try_except_pointwise.
  - cbn [run_in_executor_method].
    match goal with |- bind (ret ?a) ?k ?s = _ => exact (bind_ret a k s) end.
  - intros e s'.
    destruct (isinstance e ResponseStopIteration); [reflexivity|].
    destruct (isinstance e ChunkedEncodingError || isinstance e ConnectionError);
      [|reflexivity].
    destruct (retry_total - 1 <=? 0); [reflexivity|].
    apply bind_pointwise. intros _ s1.
    apply bind_pointwise. intros g1 s2.
    apply bind_pointwise. intros h1 s3.
    apply bind_pointwise. intros h2 s4.
    apply bind_pointwise. intros resp s5.
    destruct (Response.status_code resp =? 416); [reflexivity|].
    cbn [run_in_executor_method].
    match goal with |- bind (ret ?a) ?k ?s = _ => exact (bind_ret a k s) end.
Qed.

Lemma anext_loop_trio (lid fuel : nat) (ra : bool) (rt : Z)
    (g : StreamDownloadGenerator.t) :
  anext_loop pipeline_run fuel (VLoop lid) ra rt g
  = trio_anext_loop pipeline_run fuel ra rt g.
Proof.
  revert ra rt g.
  induction fuel as [|fuel IH]; intros ra rt g; destruct ra; try reflexivity.
  cbn [anext_loop trio_anext_loop].
  unfold bind. rewrite anext_turn_trio.
  destruct (trio_anext_turn pipeline_run rt g) as [[[[v|ra' rt']|e] g'] ev];
    try reflexivity.
  rewrite IH. reflexivity.
Qed.

(** X11: the trio generator is the asyncio generator: on every generator
    state, with a loop running, [__anext__] of the one and of the other
    return or raise the same thing, leave the same state and do the same to
    the response, the clock and the pipeline. *)
Theorem trio_generator_is_asyncio_generator (lid fuel : nat)
    (g : StreamDownloadGenerator.t) :
  trio__anext__ pipeline_run fuel g = __anext__ pipeline_run (Some lid) fuel g.
Proof.
  unfold trio__anext__, __anext__, coroutine. cbn [_get_running_loop].
  match goal with |- context [bind (ret ?a) ?k ?s] => rewrite (bind_ret a k s) end.
  rewrite anext_loop_trio. reflexivity.
Qed.

Lemma not_StopIteration_as_async (e : exn) :
  isinstance e StopIteration = false -> as_async (Raise e) = Raise e.
Proof. destruct e as [c a i]; destruct c; try reflexivity. vm_compute. discriminate. Qed.

Lemma not_Exception (e : exn) :
  isinstance e Exception = false ->
  isinstance e StopIteration = false /\ transient e = false /\
  isinstance e StreamConsumedError = false.
Proof. destruct e as [c a i]; destruct c; vm_compute; intuition congruence. Qed.

Lemma StreamConsumedError_only (e : exn) :
  isinstance e StreamConsumedError = true ->
  isinstance e StopIteration = false /\ transient e = false.
Proof. destruct e as [c a i]; destruct c; vm_compute; intuition congruence. Qed.

Lemma __anext___int (lid fuel : nat) (g : StreamDownloadGenerator.t) (n : Z) :
  downloaded g = VInt n ->
  __anext__ pipeline_run (Some lid) (S fuel) g =
    match iter_content_func g with
    | [] => (Raise (Exn StopAsyncIteration [] None), g, [ResponseClosed])
    | Chunk [] :: rest =>
        (Raise (Exn StopAsyncIteration [] None), with_iter_content_func rest g,
         [ResponseClosed])
    | Chunk b :: rest =>
        (Return (Some (VBytes b)),
         with_downloaded (VInt (n + block_size g)) (with_iter_content_func rest g), [])
    | Throw e :: rest =>
        let g' := with_iter_content_func rest g in
        if isinstance e StopIteration || isinstance e ResponseStopIteration then
          (Raise (Exn StopAsyncIteration [] None), g', [ResponseClosed])
        else if transient e then
          (Raise (builtin TypeError "unsupported operand type(s) for +"), g',
           [Slept 1000])
        else if isinstance e StreamConsumedError then (Raise e, g', [])
        else if isinstance e Exception then (Raise e, g', [Warned e; ResponseClosed])
        else (Raise e, g', [])
    end.
Proof.
  destruct g as [rq rs bs it d]. cbn [downloaded iter_content_func block_size].
  intros ->. destruct it as [|[[|b0 b]|e] rest]; try reflexivity.
  unfold transient, __anext__.
  cbv beta iota zeta delta [anext_loop anext_turn try_except bind next_iter_content get put
    raise ret set_iter_content_func with_iter_content_func iter_content_func request
    response block_size downloaded _get_running_loop run_in_executor_method
    _iterate_response_content coroutine].
  destruct (isinstance e StopIteration) eqn:Hs; [reflexivity|]. cbv beta iota zeta.
  destruct (isinstance e ResponseStopIteration); [reflexivity|].
  destruct (isinstance e ChunkedEncodingError || isinstance e ConnectionError);
    [reflexivity|].
  destruct (isinstance e StreamConsumedError);
    [cbv beta iota zeta delta [pep479]; rewrite Hs; reflexivity|].
  destruct (isinstance e Exception);
    cbv beta iota zeta delta [pep479 emit close_response app];
    rewrite Hs; reflexivity.
Qed.

(** X12: the asyncio generator follows the sync one: with a loop running
    and an integer counter, [__anext__] does to the generator, the response
    and the clock what [__next__] does and returns or raises the same,
    with [StopAsyncIteration] where [__next__] raises [StopIteration];
    a pull that raises [_ResponseStopIteration] itself is the one case set
    apart. *)
Theorem asyncio_generator_follows_sync (lid fuel : nat)
    (g : StreamDownloadGenerator.t) (n : Z) :
  downloaded g = VInt n ->
  (forall e rest, iter_content_func g = Throw e :: rest ->
                  isinstance e ResponseStopIteration = false) ->
  let a := __anext__ pipeline_run (Some lid) (S fuel) g in
  let s := __next__ pipeline_run (S fuel) g in
  outcome a = as_async (outcome s) /\ final a = final s /\ events a = events s.
Proof.
  intros Hd Hit a s. subst a s.
  rewrite (__anext___int lid fuel g n Hd), (__next___int pipeline_run fuel g n Hd).
  destruct (iter_content_func g) as [|[[|b0 b]|e] rest]; try (repeat split; reflexivity).
  rewrite (Hit e rest eq_refl). cbv zeta. rewrite orb_false_r.
  destruct (isinstance e StopIteration) eqn:Hs; [repeat split; reflexivity|].
  destruct (transient e); [repeat split; reflexivity|].
  destruct (isinstance e StreamConsumedError);
    [cbn [outcome final events fst snd];
     rewrite (not_StopIteration_as_async e Hs); repeat split; reflexivity|].
  destruct (isinstance e Exception);
    cbn [outcome final events fst snd];
    rewrite (not_StopIteration_as_async e Hs); repeat split; reflexivity.
Qed.

Lemma next_calls_S (n fuel : nat) (g : StreamDownloadGenerator.t) :
  next_calls pipeline_run (S n) fuel g =
    let '(r, g1, ev1) := __next__ pipeline_run fuel g in
    let '(rs, g2, ev2) := next_calls pipeline_run n fuel g1 in
    (r :: rs, g2, ev1 ++ ev2).
Proof. reflexivity. Qed.

(** X13: once the iterator is exhausted the generator is not latched:
    every further [__next__] raises [StopIteration] again and calls
    [close()] on the raw response again, [n] calls making [n] closes. *)
Theorem exhausted_generator_closes_every_time (n fuel : nat)
    (g : StreamDownloadGenerator.t) :
  iter_content_func g = [] ->
  next_calls pipeline_run n (S fuel) g
  = (repeat (Raise (Exn StopIteration [] None)) n, g, repeat ResponseClosed n).
Proof.
  intros Hit. induction n as [|n IH]; [reflexivity|].
  rewrite next_calls_S.
  assert (H1 : __next__ pipeline_run (S fuel) g
               = (Raise (Exn StopIteration [] None), g, [ResponseClosed])).
  { destruct g as [rq rs bs it d]. cbn in Hit. subst it. reflexivity. }
  rewrite H1, IH. reflexivity.
Qed.

Lemma next_calls_whole_body (fuel : nat) (cs : list (list Byte.byte)) :
  Forall (fun c => c <> []) cs ->
  forall (g : StreamDownloadGenerator.t) (d : Z),
  downloaded g = VInt d ->
  iter_content_func g = map Chunk cs ->
  next_calls pipeline_run (S (length cs)) (S fuel) g
  = (map (fun c => Return (Some (VBytes c))) cs ++ [Raise (Exn StopIteration [] None)],
     with_downloaded (VInt (d + block_size g * Z.of_nat (length cs)))
       (with_iter_content_func [] g),
     [ResponseClosed]).
Proof.
  intros Hne. induction Hne as [|c cs Hc Hne IH]; intros g d Hd Hit.
  - replace (d + block_size g * Z.of_nat (length (@nil (list Byte.byte)))) with d
      by (cbn; lia).
    rewrite next_calls_S, (__next___int pipeline_run fuel g d Hd), Hit.
    cbn. destruct g; cbn in *; subst. reflexivity.
  - replace (d + block_size g * Z.of_nat (length (c :: cs)))
      with (d + block_size g + block_size g * Z.of_nat (length cs))
      by (cbn [length]; lia).
    cbn [length].
    rewrite next_calls_S, (__next___int pipeline_run fuel g d Hd), Hit.
    cbn [map]. destruct c as [|b0 c]; [congruence|]. cbv beta iota zeta.
    rewrite (IH (with_downloaded (VInt (d + block_size g))
                   (with_iter_content_func (map Chunk cs) g)) (d + block_size g))
      by reflexivity.
    cbn [map app length]. destruct g; reflexivity.
Qed.

Lemma chunks_of_returned (cs : list (list Byte.byte)) (rs : list (result (option value))) :
  chunks_of (map (fun c => Return (Some (VBytes c))) cs ++ rs) = cs ++ chunks_of rs.
Proof.
  induction cs as [|c cs IH]; [reflexivity|].
  cbn [map app]. unfold chunks_of in *. cbn. rewrite IH. reflexivity.
Qed.

(** X14: a body that arrives whole is handed over whole and in order: when
    the iterator holds the non-empty chunks [cs] and nothing fails, the
    first [length cs] calls of [__next__] return these chunks one by one
    and touch nothing else, and the next call raises [StopIteration] and
    closes the raw response once. *)
Theorem stream_hands_over_the_body (fuel : nat) (g : StreamDownloadGenerator.t)
    (d : Z) (cs : list (list Byte.byte)) :
  downloaded g = VInt d ->
  iter_content_func g = map Chunk cs ->
  Forall (fun c => c <> []) cs ->
  let x := next_calls pipeline_run (S (length cs)) (S fuel) g in
  x.1.1 = map (fun c => Return (Some (VBytes c))) cs ++ [Raise (Exn StopIteration [] None)] /\
  concat (chunks_of x.1.1) = concat cs /\
  x.2 = [ResponseClosed] /\
  iter_content_func x.1.2 = [].
Proof.
  intros Hd Hit Hne x. subst x.
  rewrite (next_calls_whole_body fuel cs Hne g d Hd Hit). cbn [fst snd].
  repeat split. rewrite chunks_of_returned. cbn. rewrite app_nil_r. reflexivity.
Qed.

(** X15: a [StreamConsumedError] from the pull is raised again at once: no
    sleep, no retry, no warning, and the raw response is not closed. *)
Theorem stream_consumed_is_raised_at_once (fuel : nat) (g : StreamDownloadGenerator.t)
    (e : exn) (rest : list pull) :
  iter_content_func g = Throw e :: rest ->
  isinstance e StreamConsumedError = true ->
  __next__ pipeline_run (S fuel) g = (Raise e, with_iter_content_func rest g, []).
Proof.
  intros Hit He. destruct (StreamConsumedError_only e He) as [Hs Ht].
  unfold transient in Ht.
  destruct g as [rq rs bs it d]. cbn in Hit. subst it.
  unfold __next__. cbn [next_loop].
  cbv beta iota zeta delta [next_turn try_except bind next_iter_content get put raise ret
    set_iter_content_func with_iter_content_func iter_content_func request response
    block_size downloaded].
  rewrite Hs, Ht, He. reflexivity.
Qed.

(** X16: any other error of the pull is passed on as it is, never retried:
    an [Exception] is logged and the raw response closed once before it is
    raised again; an exception outside [Exception] (a [KeyboardInterrupt])
    goes through with the response left open. *)
Theorem unexpected_error_is_passed_on (fuel : nat) (g : StreamDownloadGenerator.t)
    (e : exn) (rest : list pull) :
  iter_content_func g = Throw e :: rest ->
  isinstance e StopIteration = false ->
  transient e = false ->
  isinstance e StreamConsumedError = false ->
  __next__ pipeline_run (S fuel) g =
    (Raise e, with_iter_content_func rest g,
     if isinstance e Exception then [Warned e; ResponseClosed] else []).
Proof.
  intros Hit Hs Ht Hc. unfold transient in Ht.
  destruct g as [rq rs bs it d]. cbn in Hit. subst it.
  unfold __next__. cbn [next_loop].
  cbv beta iota zeta delta [next_turn try_except bind next_iter_content get put raise ret
    set_iter_content_func with_iter_content_func iter_content_func request response
    block_size downloaded].
  rewrite Hs, Ht, Hc. destruct (isinstance e Exception); reflexivity.
Qed.

Lemma reissued_app (a b : list gevent) : reissued (a ++ b) = reissued a ++ reissued b.
Proof. unfold reissued. apply omap_app. Qed.

(** X17: through any series of [__next__] calls, whatever they return or
    raise, the counter is an integer that has grown by one block size for
    each chunk returned, the block size is unchanged, and
    [pipeline.run] has not been called. *)
Theorem counter_and_pipeline_invariant (n fuel : nat) (g : StreamDownloadGenerator.t)
    (d : Z) :
  downloaded g = VInt d ->
  let x := next_calls pipeline_run n (S fuel) g in
  downloaded x.1.2 = VInt (d + block_size g * Z.of_nat (length (chunks_of x.1.1))) /\
  block_size x.1.2 = block_size g /\
  reissued x.2 = [].
Proof.
  revert g d. induction n as [|n IH]; intros g d Hd x; subst x.
  - cbn. rewrite Hd. repeat split. f_equal. lia.
  - rewrite next_calls_S.
    assert (Hstep : exists r g1 ev1 d1,
              __next__ pipeline_run (S fuel) g = (r, g1, ev1) /\
              downloaded g1 = VInt d1 /\ block_size g1 = block_size g /\
              reissued ev1 = [] /\
              d1 = d + block_size g * Z.of_nat (length (chunks_of [r]))).
    { rewrite (__next___int pipeline_run fuel g d Hd).
      destruct g as [rq rs bs it dd]. cbn in Hd. subst dd.
      cbn [iter_content_func block_size].
      destruct it as [|[[|b0 b]|e] rest]; cbv zeta;
        repeat match goal with
               | |- context [if ?c then _ else _] => destruct c
               end;
        eexists _, _, _, _; (split; [reflexivity|]);
        cbn; repeat split; lia. }
    destruct Hstep as (r & g1 & ev1 & d1 & -> & Hd1 & Hb1 & Hr1 & ->).
    specialize (IH g1 _ Hd1). cbv zeta in IH.
    destruct (next_calls pipeline_run n (S fuel) g1) as [[rs g2] ev2].
    cbn [fst snd] in *. destruct IH as (-> & -> & Hr2).
    rewrite reissued_app, Hr1, Hr2, Hb1.
    repeat split. f_equal.
    change (r :: rs) with ([r] ++ rs).
    unfold chunks_of. rewrite omap_app, length_app. fold (chunks_of [r]) (chunks_of rs).
    lia.
Qed.

End GeneratorsAgree.

Section EndToEnd.
Variable session_request : nat -> Call.t -> exn + RawResponse.t.
Variable pipeline_run : HttpRequest.t -> bool -> gmap string value -> exn + Response.t.
Variable int : string -> exn + Z.

(** X18: from [send] to the last chunk: when the sync [send] returns a
    response, [stream_download] builds its generator (the [Content-Length]
    header, if there is one, reads as a number) and the body, read in blocks
    of the configured [data_block_size] (of 4096 when that is 0), arrives as
    the non-empty chunks [cs], the generator hands over exactly these chunks
    and then ends, closing the raw response once and never going back to
    the pipeline. *)
Theorem download_through_send (running : option nat) (request : HttpRequest.t)
    (kwargs : gmap string value) (w : world) (resp : Response.t)
    (g : StreamDownloadGenerator.t) (cs : list (list Byte.byte)) (fuel : nat) :
  outcome (send session_request Basic running request kwargs w) = Return resp ->
  stream_download int resp = inr g ->
  RawResponse.iter_content (Response.internal_response resp)
    (if data_block_size (connection_config (self w)) =? 0 then 4096
     else data_block_size (connection_config (self w))) = map Chunk cs ->
  Forall (fun c => c <> []) cs ->
  let x := next_calls pipeline_run (S (length cs)) (S fuel) g in
  chunks_of x.1.1 = cs /\
  last x.1.1 = Some (Raise (Exn StopIteration [] None)) /\
  closes x.2 = 1%nat /\
  reissued x.2 = [].
Proof.
  intros Hout Hg Hbody Hne x. subst x.
  assert (Hbs : Response.block_size resp =
                if data_block_size (connection_config (self w)) =? 0 then 4096
                else data_block_size (connection_config (self w))).
  { destruct (send_outline session_request Basic running request kwargs w) as [_ Hcases].
    cbn [loop_available awaitable] in Hcases.
    destruct Hcases as [(Hno & _)|(_ & Hcase)]; [exfalso; apply Hno; exact I|].
    destruct (session (self (final (open w))));
      try (rewrite (proj2 Hcase) in Hout; discriminate).
    destruct (keyword_arguments _ _); [rewrite (proj2 Hcase) in Hout; discriminate|].
    cbv zeta in Hcase. destruct Hcase as (Hc & _). destruct (Hc I) as [_ Hc'].
    clear Hc. rename Hc' into Hc.
    destruct (session_request _ _) as [err|raw].
    - destruct Hc as [(e & He) _]. rewrite He in Hout. discriminate.
    - rewrite Hc in Hout. injection Hout as <-. reflexivity. }
  assert (g = new_generator resp) as ->.
  { revert Hg. unfold stream_download.
    destruct (content_length int resp); [discriminate|]. intros [= <-]. reflexivity. }
  rewrite (next_calls_whole_body pipeline_run fuel cs Hne (new_generator resp) 0).
  - cbn [fst snd]. rewrite chunks_of_returned, last_snoc. cbn.
    rewrite app_nil_r. repeat split.
  - reflexivity.
  - unfold new_generator. cbn [iter_content_func].
    rewrite Hbs. exact Hbody.
Qed.

End EndToEnd.

(** ** The further theorems at work *)

Lemma send_hands_options_on_witness :
  http_calls
    (events (send Scenario.redirecting_session Asyncio (Some 0%nat) Scenario.get_blob
               {["connection_verify" := VBool false; "loop" := VLoop 1]} Scenario.fresh))
    = [(0%nat, Cases.get_blob_call_with_loop)] /\
  Call.keywords Cases.get_blob_call_with_loop !! "verify" = Some (VBool false) /\
  Call.keywords Cases.get_blob_call_with_loop !! "timeout" = Some (VInt 100).
Proof.
  assert (H : http_calls
    (events (send Scenario.redirecting_session Asyncio (Some 0%nat) Scenario.get_blob
               {["connection_verify" := VBool false; "loop" := VLoop 1]} Scenario.fresh))
    = [(0%nat, Cases.get_blob_call_with_loop)]) by reflexivity.
  split; [exact H|].
  pose proof (send_hands_options_on Scenario.redirecting_session Asyncio (Some 0%nat)
                Scenario.get_blob
                {["connection_verify" := VBool false; "loop" := VLoop 1]}
                Scenario.fresh 0%nat Cases.get_blob_call_with_loop H) as T.
  cbv zeta in T.
  split; [exact (proj1 (proj2 (proj2 (proj2 (proj2 T)))))
         |exact (proj1 (proj2 (proj2 (proj2 (proj2 (proj2 T))))))].
Defined.

Lemma send_rejects_doubled_keyword_witness :
  outcome (send Scenario.redirecting_session Basic None Scenario.get_blob
             {["allow_redirects" := VBool true]} Scenario.fresh)
    = Raise (builtin TypeError "got multiple values for keyword argument") /\
  http_calls (events (send Scenario.redirecting_session Basic None Scenario.get_blob
                        {["allow_redirects" := VBool true]} Scenario.fresh)) = [].
Proof.
  refine (send_rejects_doubled_keyword Scenario.redirecting_session Basic None
            Scenario.get_blob {["allow_redirects" := VBool true]} Scenario.fresh
            0%nat "allow_redirects" _ _ _ _).
  - unfold explicit_keywords. repeat constructor.
  - eexists. reflexivity.
  - exact I.
  - reflexivity.
Defined.

Lemma send_lets_other_errors_through_witness :
  outcome (send Cases.protocol_error_session Asyncio (Some 0%nat) Scenario.get_blob ∅
             Scenario.fresh)
    = Raise Cases.bare_protocol_error /\
  outcome (send Cases.protocol_error_session Trio None Scenario.get_blob ∅ Scenario.fresh)
    = Raise Cases.bare_protocol_error.
Proof.
  split.
  - refine (proj2 (send_lets_other_errors_through Cases.protocol_error_session Asyncio
                     (Some 0%nat) Scenario.get_blob ∅ Scenario.fresh 0%nat
                     Cases.bare_protocol_error _ _ _ _ _));
      try reflexivity.
    split; [reflexivity|]. split; [exists 0%nat; split; reflexivity|].
    intros k _. apply lookup_empty.
  - refine (proj2 (send_lets_other_errors_through Cases.protocol_error_session Trio None
                     Scenario.get_blob ∅ Scenario.fresh 0%nat
                     Cases.bare_protocol_error _ _ _ _ _));
      try reflexivity.
    split; [reflexivity|]. split; [first [exact I|reflexivity]|]. intros k _. apply lookup_empty.
Defined.

Lemma open_configures_new_session_witness :
  events (open Scenario.fresh)
    = [SessionCreated 0; TrustEnvSet 0 (VBool true);
       AdapterMounted 0 "http://"; AdapterMounted 0 "https://"].
Proof.
  refine (proj2 (proj2 (open_configures_new_session ∅ Scenario.config 0%nat _ _)));
    reflexivity.
Defined.

Lemma unowned_session_is_left_alone_witness :
  sessions_closed
    (run_ops Scenario.redirecting_session
       [Open; Send Basic None Scenario.get_blob ∅; Close; Send Trio None Scenario.get_blob ∅]
       Cases.on_callers_session).2 = [].
Proof.
  refine (proj1 (proj2
            (unowned_session_is_left_alone Scenario.redirecting_session
               [Open; Send Basic None Scenario.get_blob ∅; Close;
                Send Trio None Scenario.get_blob ∅]
               Cases.on_callers_session 7%nat _ _)));
    reflexivity.
Defined.


Lemma send_asyncio_without_loop_witness :
  outcome (send Scenario.redirecting_session Asyncio None Scenario.get_blob ∅ Scenario.fresh)
    = Raise (builtin RuntimeError "No running event loop").
Proof.
  refine (proj1 (send_asyncio_without_loop Scenario.redirecting_session
                   Scenario.get_blob ∅ Scenario.fresh _ _));
    reflexivity.
Defined.


Lemma asyncio_generator_follows_sync_witness :
  outcome (__anext__ Cases.no_pipeline (Some 0%nat) 1 Cases.empty_stream)
    = Raise (Exn StopAsyncIteration [] None).
Proof.
  refine (proj1 (asyncio_generator_follows_sync Cases.no_pipeline 0%nat 0%nat
                   Cases.empty_stream 0 _ _)).
  - reflexivity.
  - intros e rest H. discriminate H.
Defined.

Lemma exhausted_generator_closes_every_time_witness :
  closes (next_calls Cases.no_pipeline 3 1 Cases.empty_stream).2 = 3%nat.
Proof.
  rewrite (exhausted_generator_closes_every_time Cases.no_pipeline 3 0 Cases.empty_stream);
    reflexivity.
Defined.

Lemma stream_hands_over_the_body_witness :
  concat (chunks_of (next_calls Cases.no_pipeline 3 1 Cases.six_byte_stream).1.1)
    = Scenario.abcdef.
Proof.
  refine (proj1 (proj2
            (stream_hands_over_the_body Cases.no_pipeline 0%nat Cases.six_byte_stream 0
               [take 4 Scenario.abcdef; drop 4 Scenario.abcdef] _ _ _))).
  - reflexivity.
  - reflexivity.
  - repeat constructor; discriminate.
Defined.

Lemma stream_consumed_is_raised_at_once_witness :
  events (__next__ Cases.no_pipeline 1 (Cases.failing_stream Cases.consumed)) = [].
Proof.
  rewrite (stream_consumed_is_raised_at_once Cases.no_pipeline 0
             (Cases.failing_stream Cases.consumed) Cases.consumed []);
    reflexivity.
Defined.

Lemma unexpected_error_is_passed_on_witness :
  events (__next__ Cases.no_pipeline 1 (Cases.failing_stream Cases.bad_value))
    = [Warned Cases.bad_value; ResponseClosed] /\
  events (__next__ Cases.no_pipeline 1 (Cases.failing_stream Cases.interrupt)) = [].
Proof.
  split.
  - rewrite (unexpected_error_is_passed_on Cases.no_pipeline 0
               (Cases.failing_stream Cases.bad_value) Cases.bad_value []);
      reflexivity.
  - rewrite (unexpected_error_is_passed_on Cases.no_pipeline 0
               (Cases.failing_stream Cases.interrupt) Cases.interrupt []);
      reflexivity.
Defined.

Lemma counter_and_pipeline_invariant_witness :
  reissued (next_calls Cases.no_pipeline 5 1 (Cases.failing_stream Scenario.broken)).2 = [].
Proof.
  refine (proj2 (proj2
            (counter_and_pipeline_invariant Cases.no_pipeline 5 0
               (Cases.failing_stream Scenario.broken) 0 _)));
    reflexivity.
Defined.

Lemma download_through_send_witness :
  chunks_of
    (next_calls Cases.no_pipeline 3 1
       (new_generator
          (new_response RequestsTransportResponse Scenario.get_blob
             Scenario.ok_six_bytes 4))).1.1
    = [take 4 Scenario.abcdef; drop 4 Scenario.abcdef].
Proof.
  refine (proj1
            (download_through_send Cases.serving_session Cases.no_pipeline Cases.decimal
               None Scenario.get_blob ∅ Scenario.fresh
               (new_response RequestsTransportResponse Scenario.get_blob
                  Scenario.ok_six_bytes 4)
               (new_generator
                  (new_response RequestsTransportResponse Scenario.get_blob
                     Scenario.ok_six_bytes 4))
               [take 4 Scenario.abcdef; drop 4 Scenario.abcdef] 0%nat _ _ _ _)).
  - reflexivity.
  - reflexivity.
  - reflexivity.
  - repeat constructor; discriminate.
Defined.

